(** * The retail-store recommender: model of [recommender_system.py]

    A shallow embedding of [train_and_save_model] and
    [get_recommendations_for_user], with the pandas, numpy and Surprise
    operations they call.

    Conventions.
    - A Python [int] is a [Z].
    - A finite Python [float] is the rational it denotes, a [Q]; NaN and
      the infinities have no counterpart here.  Comparisons, [min] and [max]
      of floats are exact and are computed; a floating-point sum or mean
      rounds, in an order pandas does not fix, and is taken as given
      ([Numerics]).
    - A pandas [int64] is a [Z] and its sums wrap around.
    - A [DataFrame] keeps its column index (the labels) next to its rows; a
      row carries one value for every label this module ever reads or
      writes, and the value under a label that is absent from the index is
      never read: each access first checks the index and raises [KeyError]
      as pandas does.
    - A Python [dict] is a [gmap]. *)

From Stdlib Require Import QArith Qminmax Qabs Reals Qreals Lra.
From stdpp Require Import base list strings gmap pretty sorting.

Local Open Scope string_scope.
Local Open Scope list_scope.
Local Open Scope Z_scope.

(** ** Errors *)

Inductive Error : Type :=
  | KeyError (labels : list string)
  | LibraryError (msg : string).

Inductive Result (A : Type) : Type :=
  | Ok (a : A)
  | Err (e : Error).
Arguments Ok {A} a.
Arguments Err {A} e.

Definition bindR {A B} (k : A → Result B) (r : Result A) : Result B :=
  match r with
  | Ok a => k a
  | Err e => Err e
  end.

#[global] Instance Result_bind : MBind Result := @bindR.
#[global] Instance Result_ret : MRet Result := @Ok.

Fixpoint mapR {A B} (f : A → Result B) (l : list A) : Result (list B) :=
  match l with
  | [] => Ok []
  | x :: l' => y ← f x; ys ← mapR f l'; Ok (y :: ys)
  end.

(** ** Data model *)

Record Purchase : Type := mkPurchase {
  Customer_ID : Z;
  Product_ID : Z;
  Category : string;
  Subcategory : string;
  Purchase_Amount : Q;
  Purchase_Amount_Scaled : Q
}.

Record DataFrame : Type := mkFrame {
  columns : list string;
  rows : list Purchase
}.

(** What [model.predict(uid=u, iid=i).est] answers: a model is used through
    its estimates only. *)
Definition Model : Type := Z → Z → Q.

Record Recommendation : Type := mkRecommendation {
  rec_Product_ID : Z;
  rec_Estimated_Rating : Q;
  rec_Category : string;
  rec_Subcategory : string;
  rec_Reason : string
}.

(** ** pandas and Python primitives *)

(** [data[label]]: the column, or [KeyError]. *)
Definition getitem {A} (data : DataFrame) (label : string)
    (field : Purchase → A) : Result (list A) :=
  if decide (label ∈ columns data) then Ok (field <$> rows data)
  else Err (KeyError [label]).

(** [data[[l1, ..., lk]]]: the sub-frame, or [KeyError] with the labels that
    are missing. *)
Definition getitems {A} (data : DataFrame) (labels : list string)
    (fields : Purchase → A) : Result (list A) :=
  match filter (λ l, l ∉ columns data) labels with
  | [] => Ok (fields <$> rows data)
  | missing => Err (KeyError missing)
  end.

(** [data[data[label] == v]]: the rows selected by a boolean mask. *)
Definition select {A} `{EqDecision A} (data : DataFrame) (label : string)
    (field : Purchase → A) (v : A) : Result DataFrame :=
  if decide (label ∈ columns data)
  then Ok (mkFrame (columns data) (filter (λ r, field r = v) (rows data)))
  else Err (KeyError [label]).

(** [Series.unique()] and [DataFrame.drop_duplicates()]: the distinct
    values, each at the place of its first occurrence. *)
Fixpoint unique {A} `{EqDecision A} (l : list A) : list A :=
  match l with
  | [] => []
  | x :: l' => x :: filter (λ y, y ≠ x) (unique l')
  end.

(** [sorted(l, key=lambda x: x[1], reverse=True)]: Python compares keys with
    [<] only and keeps the order of elements whose keys compare equal. *)
Definition Qltb (a b : Q) : bool := negb (Qle_bool b a).

Fixpoint insert_desc {A} (x : A * Q) (l : list (A * Q)) : list (A * Q) :=
  match l with
  | [] => [x]
  | y :: l' => if Qltb (snd x) (snd y) then y :: insert_desc x l' else x :: l
  end.

Definition sorted_desc {A} (l : list (A * Q)) : list (A * Q) :=
  foldr insert_desc [] l.

(** [l[:n]]: a negative bound counts from the end. *)
Definition slice_to {A} (n : Z) (l : list A) : list A :=
  if 0 <=? n then take (Z.to_nat n) l
  else take (Z.to_nat (Z.of_nat (length l) + n)) l.

(** [set_index('Product_ID').T.to_dict()]: the columns of the transposed
    frame are visited in order and written into a dict, so a later row with
    the same product id replaces an earlier one. *)
Definition to_dict (details : list (Z * string * string))
    : gmap Z (string * string) :=
  foldl (λ d t, <[t.1.1 := (t.1.2, t.2)]> d) ∅ details.

(** [sep.join(parts)] *)
Fixpoint join (sep : string) (parts : list string) : string :=
  match parts with
  | [] => ""
  | [p] => p
  | p :: ps => p +:+ sep +:+ join sep ps
  end.

(** The floating-point reductions of pandas.  Each addition rounds, and
    neither the order of the additions nor their compensation is fixed by
    pandas, so the result is whatever the routine answers on the column. *)
Class Numerics : Type := {
  (** [Series.sum()] on a float column *)
  Series_sum : list Q → Q;
  (** [groupby(...).agg('sum')] on the float column of one group *)
  groupby_sum : list Q → Q;
  (** [groupby(...).agg('mean')] on the float column of one group *)
  groupby_mean : list Q → Q
}.

(** *** Number formatting *)

(** The nearest integer, halves to the even one, as Python's formatting of a
    float rounds its exact value. *)
Definition round_half_even (q : Q) : Z :=
  let n := Qnum q in
  let d := Z.pos (Qden q) in
  let f := n / d in
  let r := n mod d in
  if 2 * r <? d then f
  else if d <? 2 * r then f + 1
  else if Z.even f then f else f + 1.

Definition digits (n : Z) : string := pretty (Z.to_N n).

(** Groups of three digits from the right, separated by commas. *)
Fixpoint group3 (fuel : nat) (n : Z) : string :=
  match fuel with
  | O => digits n
  | S fuel' =>
      if n <? 1000 then digits n
      else
        let low := n mod 1000 in
        group3 fuel' (n / 1000) +:+ "," +:+
        (if low <? 10 then "00" else if low <? 100 then "0" else "") +:+
        digits low
  end.

Definition thousands (n : Z) : string :=
  group3 (Z.to_nat (Z.log2 n)) n.

Definition format_fixed2 (grouped : bool) (q : Q) : string :=
  let cents := round_half_even (Qabs q * 100) in
  let whole := cents / 100 in
  let frac := cents mod 100 in
  (if Qltb q 0 then "-" else "") +:+
  (if grouped then thousands whole else digits whole) +:+ "." +:+
  (if frac <? 10 then "0" else "") +:+ digits frac.

(** [f"{x:.2f}"] *)
Definition format_2f : Q → string := format_fixed2 false.
(** [f"{x:,.2f}"] *)
Definition format_comma_2f : Q → string := format_fixed2 true.

(** ** [get_recommendations_for_user] *)

(** Lines 72-74: the products to score. *)
Definition items_to_predict (user_id : Z) (data : DataFrame)
    : Result (list Z) :=
  ids ← getitem data "Product_ID" Product_ID;
  let all_items := unique ids in
  user_rows ← select data "Customer_ID" Customer_ID user_id;
  user_ids ← getitem user_rows "Product_ID" Product_ID;
  let user_items := unique user_ids in
  Ok (filter (λ item, item ∉ user_items) all_items).

(** Lines 77-83: score, sort by estimate, keep the first [n]. *)
Definition score (user_id : Z) (model : Model) (items : list Z)
    : list (Z * Q) :=
  (λ item, (item, model user_id item)) <$> items.

Definition top_predictions (user_id n : Z) (model : Model) (items : list Z)
    : list (Z * Q) :=
  slice_to n (sorted_desc (score user_id model items)).

(** Lines 86-87: the dict from product id to its category and subcategory. *)
Definition product_details_dict (data : DataFrame)
    : Result (gmap Z (string * string)) :=
  details ← getitems data ["Product_ID"; "Category"; "Subcategory"]
               (λ r, (Product_ID r, Category r, Subcategory r));
  Ok (to_dict (unique details)).

(** Lines 89-97: a recommendation before its reason is attached. *)
Record Detail : Type := mkDetail {
  det_Product_ID : Z;
  det_Estimated_Rating : Q;
  det_Category : string;
  det_Subcategory : string
}.

Definition detail_of (d : gmap Z (string * string)) (p : Z * Q)
    : Result Detail :=
  match d !! p.1 with
  | Some (category, subcategory) => Ok (mkDetail p.1 p.2 category subcategory)
  | None => Err (KeyError [pretty p.1])
  end.

(** Lines 111-118: the clauses of a reason. *)
Definition interest_clause (category : string) : string :=
  "the customer has shown a strong interest in " +:+ category +:+
  " items previously".

Definition subcategory_clause (subcategory : string) : string :=
  "specifically within the " +:+ subcategory +:+ " subcategory".

Definition popularity_clause (popularity_score : Q) : string :=
  "this product is highly popular among other customers with total revenue of $"
  +:+ format_comma_2f popularity_score.

Definition rating_clause (est : Q) : string :=
  "the predicted rating for this product is " +:+ format_2f est +:+
  ", indicating high satisfaction potential".

(** Line 120 *)
Definition reason_sentence (reason_parts : list string) : string :=
  "Recommended because " +:+ join "; " reason_parts +:+ ".".

(** Lines 100-120: the body of the loop over the recommendations. *)
Definition add_reason {num : Numerics} (user_id : Z) (data : DataFrame)
    (rec : Detail) : Result Recommendation :=
  category_products ← select data "Category" Category (det_Category rec);
  subcategory_products ←
    select category_products "Subcategory" Subcategory (det_Subcategory rec);
  user_past_purchases ← select data "Customer_ID" Customer_ID user_id;
  user_category_purchases ←
    select user_past_purchases "Category" Category (det_Category rec);
  user_subcategory_purchases ←
    select user_category_purchases "Subcategory" Subcategory
      (det_Subcategory rec);
  let reason_parts : list string := [] in
  let reason_parts :=
    if decide (rows user_category_purchases = []) then reason_parts
    else (reason_parts ++ [interest_clause (det_Category rec)])%list in
  let reason_parts :=
    if decide (rows user_subcategory_purchases = []) then reason_parts
    else (reason_parts ++ [subcategory_clause (det_Subcategory rec)])%list in
  amounts ← getitem subcategory_products "Purchase_Amount" Purchase_Amount;
  let popularity_score := Series_sum amounts in
  let reason_parts :=
    (reason_parts ++ [popularity_clause popularity_score])%list in
  let reason_parts :=
    (reason_parts ++ [rating_clause (det_Estimated_Rating rec)])%list in
  Ok (mkRecommendation (det_Product_ID rec) (det_Estimated_Rating rec)
        (det_Category rec) (det_Subcategory rec)
        (reason_sentence reason_parts)).

Definition get_recommendations_for_user {num : Numerics} (user_id n : Z)
    (data : DataFrame) (model : Model) : Result (list Recommendation) :=
  items ← items_to_predict user_id data;
  let predictions := top_predictions user_id n model items in
  d ← product_details_dict data;
  detailed_recommendations ← mapR (detail_of d) predictions;
  mapR (add_reason user_id data) detailed_recommendations.

(** ** [train_and_save_model] *)

(** *** The Surprise objects the trainer handles *)

Record Params : Type := mkParams {
  n_factors : Z;
  n_epochs : Z;
  lr_all : Q;
  reg_all : Q
}.

Record ParamGrid : Type := mkGrid {
  grid_n_factors : list Z;
  grid_n_epochs : list Z;
  grid_lr_all : list Q;
  grid_reg_all : list Q
}.

(** Lines 34-39 *)
Definition param_grid : ParamGrid :=
  mkGrid [20; 50; 100] [10; 20; 30]
    [2 # 1000; 5 # 1000; 1 # 100]%Q [2 # 100; 5 # 100; 1 # 10]%Q.

(** [Series.min()] and [Series.max()]; [None] is the NaN of an empty
    series. *)
Definition Series_min (l : list Q) : option Q :=
  match l with
  | [] => None
  | x :: l' => Some (foldl Qmin x l')
  end.

Definition Series_max (l : list Q) : option Q :=
  match l with
  | [] => None
  | x :: l' => Some (foldl Qmax x l')
  end.

Record Reader : Type := mkReader {
  rating_scale : option Q * option Q
}.

(** [Dataset.load_from_df(df, reader)]: one rating per row of the frame. *)
Record Dataset : Type := load_from_df {
  raw_ratings : list (Z * Z * Q);
  reader : Reader
}.

(** How an attempt to write a file ends. *)
Inductive WriteOutcome : Type :=
  | Written
  | OpenRaises (e : Error)
  | DumpRaises (e : Error).

(** What the trainer calls and this repository does not define: numpy's
    [log1p] on floats, the Surprise routines and the writing of a pickle.
    Each routine that draws random numbers takes the state of the generator
    and returns the next one. *)
Class Externals : Type := {
  log1p : Q → Q;
  Trainset : Type;
  Testset : Type;
  (** [GridSearchCV(SVDpp, grid, measures, cv, n_jobs=-1).fit(data)], then
      its [best_params]: a dict keyed by measure. *)
  GridSearchCV_fit :
    ParamGrid → list string → Z → Dataset → N → Result (gmap string Params) * N;
  train_test_split : Dataset → Q → N → Result (Trainset * Testset) * N;
  (** The [SVDpp] constructor applied to the parameters, then [fit(trainset)]. *)
  SVDpp_fit : Params → Trainset → N → Result Model * N;
  (** [open(path, 'wb')] followed by [pickle.dump]: whether the file system
      takes the file at [path]. *)
  write_outcome : string → WriteOutcome
}.

(** *** The world outside the process *)

(** What a file that exists holds: the object that was pickled into it,
    or bytes that are no complete pickle, which is what a dump leaves that
    raised after the file had been opened for writing. *)
Inductive File (A : Type) : Type :=
  | Pickled (a : A)
  | Garbage.
Arguments Pickled {A} a.
Arguments Garbage {A}.

(** The two files of the working directory the trainer looks at; [None] is
    a path that does not exist. *)
Record Disk : Type := mkDisk {
  model_file : option (File Model);
  best_params_file : option (File Params)
}.

(** The object a path holds, when it exists and holds one. *)
Definition unpickle {A} (f : option (File A)) : option A :=
  match f with
  | Some (Pickled a) => Some a
  | _ => None
  end.

Definition model_pkl (d : Disk) : option Model := unpickle (model_file d).
Definition best_params_pkl (d : Disk) : option Params :=
  unpickle (best_params_file d).

(** The calls that leave the process, in the order they are made. *)
Inductive Event : Type :=
  | EvGridSearch
  | EvSplit
  | EvFit
  | EvLoad (path : string)
  | EvDump (path : string).

Record World : Type := mkWorld {
  disk : Disk;
  rng : N;
  trace : list Event
}.

Definition M (A : Type) : Type := World → Result A * World.

Definition retM {A} (a : A) : M A := λ w, (Ok a, w).

Definition bindM {A B} (k : A → M B) (m : M A) : M B :=
  λ w, match m w with
       | (Ok a, w') => k a w'
       | (Err e, w') => (Err e, w')
       end.

#[global] Instance M_bind : MBind M := @bindM.
#[global] Instance M_ret : MRet M := @retM.

Definition lift {A} (r : Result A) : M A := λ w, (r, w).

Definition emit (e : Event) (w : World) : World :=
  mkWorld (disk w) (rng w) (trace w ++ [e]).

(** A library routine: it is recorded, and it advances the generator. *)
Definition call {A} (e : Event) (f : N → Result A * N) : M A :=
  λ w, let '(r, s) := f (rng w) in (r, mkWorld (disk w) s (trace w ++ [e])).

(** [os.path.exists] on the two paths. *)
Definition exists_model_pkl : M bool :=
  λ w, (Ok (bool_decide (is_Some (model_file (disk w)))), w).
Definition exists_best_params_pkl : M bool :=
  λ w, (Ok (bool_decide (is_Some (best_params_file (disk w)))), w).

Definition FileNotFoundError (path : string) : Error :=
  LibraryError ("No such file or directory: " +:+ path).

Definition UnpicklingError (path : string) : Error :=
  LibraryError ("Ran out of input: " +:+ path).

(** [pickle.load(open(path, 'rb'))] *)
Definition load_model_pkl : M Model :=
  λ w, match model_file (disk w) with
       | Some (Pickled m) => (Ok m, emit (EvLoad "model.pkl") w)
       | Some Garbage =>
           (Err (UnpicklingError "model.pkl"), emit (EvLoad "model.pkl") w)
       | None => (Err (FileNotFoundError "model.pkl"), w)
       end.
Definition load_best_params_pkl : M Params :=
  λ w, match best_params_file (disk w) with
       | Some (Pickled p) => (Ok p, emit (EvLoad "best_params.pkl") w)
       | Some Garbage =>
           (Err (UnpicklingError "best_params.pkl"),
            emit (EvLoad "best_params.pkl") w)
       | None => (Err (FileNotFoundError "best_params.pkl"), w)
       end.

(** [with open(path, 'wb') as f: pickle.dump(obj, f)]: the call is
    recorded; when [open] raises the path is as before, when [pickle.dump]
    raises the file has been opened, so it exists and holds no complete
    pickle. *)
Definition dump_model_pkl {ext : Externals} (m : Model) : M unit :=
  λ w,
    let w' := emit (EvDump "model.pkl") w in
    let put f := mkWorld (mkDisk f (best_params_file (disk w))) (rng w)
                   (trace w') in
    match write_outcome "model.pkl" with
    | Written => (Ok tt, put (Some (Pickled m)))
    | OpenRaises e => (Err e, w')
    | DumpRaises e => (Err e, put (Some Garbage))
    end.
Definition dump_best_params_pkl {ext : Externals} (p : Params) : M unit :=
  λ w,
    let w' := emit (EvDump "best_params.pkl") w in
    let put f := mkWorld (mkDisk (model_file (disk w)) f) (rng w)
                   (trace w') in
    match write_outcome "best_params.pkl" with
    | Written => (Ok tt, put (Some (Pickled p)))
    | OpenRaises e => (Err e, w')
    | DumpRaises e => (Err e, put (Some Garbage))
    end.

(** [data['Purchase_Amount_Scaled'] = values]: the label is appended to
    the index unless it is there already. *)
Definition set_scaled (r : Purchase) (v : Q) : Purchase :=
  mkPurchase (Customer_ID r) (Product_ID r) (Category r) (Subcategory r)
    (Purchase_Amount r) v.

Definition setitem_scaled (data : DataFrame) (values : list Q) : DataFrame :=
  mkFrame
    (if decide ("Purchase_Amount_Scaled" ∈ columns data) then columns data
     else (columns data ++ ["Purchase_Amount_Scaled"])%list)
    (zip_with set_scaled (rows data) values).

(** [d[key]] on a dict *)
Definition dict_getitem {V} (d : gmap string V) (key : string) : Result V :=
  match d !! key with
  | Some v => Ok v
  | None => Err (KeyError [key])
  end.

Section Trainer.
Context {ext : Externals}.

(** Lines 19-23: the scaled column, the reader and the rating triples. *)
Definition prepare (data : DataFrame) : Result (DataFrame * Dataset) :=
  amounts ← getitem data "Purchase_Amount" Purchase_Amount;
  let data := setitem_scaled data (log1p <$> amounts) in
  scaled ← getitem data "Purchase_Amount_Scaled" Purchase_Amount_Scaled;
  let reader := mkReader (Series_min scaled, Series_max scaled) in
  triples ← getitems data
              ["Customer_ID"; "Product_ID"; "Purchase_Amount_Scaled"]
              (λ r, (Customer_ID r, Product_ID r, Purchase_Amount_Scaled r));
  Ok (data, load_from_df triples reader).

(** Lines 33-55: grid search, final fit, persistence. *)
Definition train (data_surprise : Dataset) : M Model :=
  found ← call EvGridSearch
            (GridSearchCV_fit param_grid ["rmse"; "mae"] 3 data_surprise);
  best_params ← lift (dict_getitem found "rmse");
  split ← call EvSplit (train_test_split data_surprise (2 # 10));
  model ← call EvFit (SVDpp_fit best_params split.1);
  _ ← dump_model_pkl model;
  _ ← dump_best_params_pkl best_params;
  mret model.

Definition train_and_save_model (data : DataFrame) : M (Model * DataFrame) :=
  prepared ← lift (prepare data);
  let data := prepared.1 in
  let data_surprise := prepared.2 in
  has_model ← exists_model_pkl;
  has_params ← (if has_model : bool then exists_best_params_pkl
                else retM false);
  model ← (if has_params : bool
           then (model ← load_model_pkl;
                 _ ← load_best_params_pkl;
                 mret model) : M Model
           else train data_surprise);
  mret (model, data).
End Trainer.

(** ** Notions the statements below are phrased in *)

(** Customer [user_id] has a purchase row for product [p]. *)
Definition purchased (user_id : Z) (data : DataFrame) (p : Z) : Prop :=
  ∃ r, r ∈ rows data ∧ Customer_ID r = user_id ∧ Product_ID r = p.

(** Customer [user_id] has a purchase row in [category]. *)
Definition bought_in_category (user_id : Z) (data : DataFrame)
    (category : string) : Prop :=
  ∃ r, r ∈ rows data ∧ Customer_ID r = user_id ∧ Category r = category.

(** Customer [user_id] has a purchase row in [subcategory] of [category]. *)
Definition bought_in_subcategory (user_id : Z) (data : DataFrame)
    (category subcategory : string) : Prop :=
  ∃ r, r ∈ rows data ∧ Customer_ID r = user_id ∧
       Category r = category ∧ Subcategory r = subcategory.

(** The revenue of all rows of one category and subcategory: the sum of
    their amounts, in row order, as pandas computes it. *)
Definition revenue {num : Numerics} (data : DataFrame)
    (category subcategory : string) : Q :=
  Series_sum
    (Purchase_Amount <$>
       filter (λ r, Category r = category ∧ Subcategory r = subcategory)
         (rows data)).

(** The category and subcategory of the rows of product [p], in row order. *)
Definition pairs_of (data : DataFrame) (p : Z) : list (string * string) :=
  (λ r, (Category r, Subcategory r)) <$>
    filter (λ r, Product_ID r = p) (rows data).

(** The labels [get_recommendations_for_user] reads. *)
Definition recommender_labels : list string :=
  ["Customer_ID"; "Product_ID"; "Category"; "Subcategory"; "Purchase_Amount"].

(** The labels [train_and_save_model] reads from its argument. *)
Definition trainer_labels : list string :=
  ["Customer_ID"; "Product_ID"; "Purchase_Amount"].

Definition pair_of (r : Recommendation) : Z * Q :=
  (rec_Product_ID r, rec_Estimated_Rating r).

#[global] Instance Qeq_decision (x y : Q) : Decision (x == y)%Q.
Proof. destruct (Qeq_dec x y); [left | right]; assumption. Defined.

(** Both paths exist: what line 26 tests. *)
Definition cached (w : World) : Prop :=
  is_Some (model_file (disk w)) ∧ is_Some (best_params_file (disk w)).

(** The order of a ranking: no estimate is below a later one. *)
Definition by_estimate {A} (a b : A * Q) : Prop := (b.2 <= a.2)%Q.

(** The scaled column the trainer computes, the frame that carries it and
    the dataset handed to Surprise. *)
Definition scaled_amounts {ext : Externals} (data : DataFrame) : list Q :=
  log1p <$> (Purchase_Amount <$> rows data).

Definition annotated {ext : Externals} (data : DataFrame) : DataFrame :=
  setitem_scaled data (scaled_amounts data).

Definition rating_triples {ext : Externals} (data : DataFrame)
    : list (Z * Z * Q) :=
  (λ r, (Customer_ID r, Product_ID r, log1p (Purchase_Amount r))) <$> rows data.

Definition dataset_of {ext : Externals} (data : DataFrame) : Dataset :=
  load_from_df (rating_triples data)
    (mkReader (Series_min (scaled_amounts data),
               Series_max (scaled_amounts data))).

(** The contract of Surprise this development relies on for the bound on
    estimates: a model fitted on a training set that was split from a
    dataset answers within the rating scale of that dataset's reader
    ([AlgoBase.predict] clips its estimate to the scale of the training
    set). *)
Definition clips_to_scale (ext : Externals) : Prop :=
  ∀ ds size s1 s2 s3 tr te params (m : Model) lo hi,
    train_test_split ds size s1 = (Ok (tr, te), s2) →
    SVDpp_fit params tr s2 = (Ok m, s3) →
    rating_scale (reader ds) = (Some lo, Some hi) →
    (lo <= hi)%Q →
    ∀ u i, (lo <= m u i <= hi)%Q.

(** The contract of numpy this development relies on for the round trip
    of the scaling: on this amount [log1p] answers within [eps] of the
    natural logarithm of one plus the amount. *)
Definition log1p_accurate (ext : Externals) (eps : R) (amount : Q) : Prop :=
  (Rabs (Q2R (log1p amount) - ln (1 + Q2R amount)) <= eps)%R.

(** ** Sample inputs *)

(** Stand-ins for the floating-point reductions, to run the functions on:
    the sums and the mean without rounding.  The amounts of the sample
    frames are multiples of a quarter, which floats add without error. *)
Definition exact_sums : Numerics := {|
  Series_sum := foldr Qplus 0%Q;
  groupby_sum := foldr Qplus 0%Q;
  groupby_mean := λ l, (foldr Qplus 0 l / inject_Z (Z.of_nat (length l)))%Q
|}.

Definition sample_columns : list string :=
  ["Customer_ID"; "Product_ID"; "Category"; "Subcategory"; "Purchase_Amount"].

Definition sample_data : DataFrame := mkFrame sample_columns
  [ mkPurchase 7 1 "Electronics" "Laptops" (120050 # 100) 0;
    mkPurchase 8 2 "Electronics" "Headphones" (5975 # 100) 0;
    mkPurchase 8 3 "Books" "Fiction" (1250 # 100) 0;
    mkPurchase 9 2 "Electronics" "Headphones" (6025 # 100) 0 ].

Definition sample_model : Model := λ u i, (i # 2)%Q.

Definition sample_recs : list Recommendation :=
  Eval vm_compute in
    match get_recommendations_for_user (num := exact_sums)
        7 5 sample_data sample_model with
    | Ok recs => recs
    | Err _ => []
    end.

(** Product 10 is filed under two categories. *)
Definition ambiguous_data : DataFrame := mkFrame sample_columns
  [ mkPurchase 1 10 "Books" "Fiction" (10 # 1) 0;
    mkPurchase 1 10 "Beauty" "Makeup" (20 # 1) 0;
    mkPurchase 1 10 "Books" "Fiction" (30 # 1) 0;
    mkPurchase 2 11 "Books" "Comics" (5 # 1) 0 ].

(** Two categories share the subcategory label [Accessories], as
    [PRODUCT_CATEGORIES] of [dataGeneration.py] has it. *)
Definition accessories_data : DataFrame := mkFrame sample_columns
  [ mkPurchase 1 100 "Clothing" "Accessories" (20 # 1) 0;
    mkPurchase 1 101 "Electronics" "Laptops" (1000 # 1) 0;
    mkPurchase 2 102 "Electronics" "Accessories" (15 # 1) 0 ].

(** A frame with a free item and one with a refund booked as a negative
    amount. *)
Definition free_data : DataFrame := mkFrame sample_columns
  [ mkPurchase 4 9 "Books" "Fiction" 0 0 ].

Definition refund_data : DataFrame := mkFrame sample_columns
  [ mkPurchase 4 9 "Books" "Fiction" (-2 # 1) 0 ].

(** A frame without the amount column. *)
Definition no_amount_data : DataFrame :=
  mkFrame ["Customer_ID"; "Product_ID"; "Category"; "Subcategory"]
    (rows sample_data).

Definition sample_params : Params := mkParams 20 10 (2 # 1000) (2 # 100).

Definition clip (scale : option Q * option Q) (x : Q) : Q :=
  match scale with
  | (Some lo, Some hi) => Qmax lo (Qmin hi x)
  | _ => x
  end.

(** Stand-ins for the external routines, to run the trainer on. *)
Definition sample_externals : Externals := {|
  log1p := λ a, a;
  Trainset := Dataset;
  Testset := unit;
  GridSearchCV_fit := λ _ _ _ _ s,
    (Ok (<["rmse" := sample_params]> (<["mae" := sample_params]> ∅)),
     N.succ s);
  train_test_split := λ ds _ s, (Ok (ds, tt), N.succ s);
  SVDpp_fit := λ _ tr s,
    (Ok (λ u i, clip (rating_scale (reader tr)) (inject_Z i)), N.succ s);
  write_outcome := λ _, Written
|}.

(** The same routines on a file system that has no room left when the
    parameters are written. *)
Definition full_disk_externals : Externals := {|
  log1p := λ a, a;
  Trainset := Dataset;
  Testset := unit;
  GridSearchCV_fit := λ _ _ _ _ s,
    (Ok (<["rmse" := sample_params]> (<["mae" := sample_params]> ∅)),
     N.succ s);
  train_test_split := λ ds _ s, (Ok (ds, tt), N.succ s);
  SVDpp_fit := λ _ tr s,
    (Ok (λ u i, clip (rating_scale (reader tr)) (inject_Z i)), N.succ s);
  write_outcome := λ path,
    if decide (path = "best_params.pkl")
    then DumpRaises (LibraryError "No space left on device")
    else Written
|}.

Definition empty_world : World := mkWorld (mkDisk None None) 0%N [].

Definition cached_world : World :=
  mkWorld (mkDisk (Some (Pickled sample_model)) (Some (Pickled sample_params)))
    0%N [].

(** ** [analyze_popularity] *)

(** A purchase row with the two further columns the popularity table
    reads, and the frame of such rows. *)
Record Sale : Type := mkSale {
  sale_row : Purchase;
  Purchase_Quantity : Z;
  Unit_Price : Q
}.

Record SalesFrame : Type := mkSales {
  sales_columns : list string;
  sales : list Sale
}.

Definition sale_Product_ID (s : Sale) : Z := Product_ID (sale_row s).
Definition sale_Amount (s : Sale) : Q := Purchase_Amount (sale_row s).

(** A row of the popularity table; the product id is its index. *)
Record Popularity : Type := mkPopularity {
  pop_Product_ID : Z;
  total_purchases : Z;
  total_revenue : Q;
  average_price : Q
}.

(** What an [int64] holds after an addition: the result modulo [2^64], in
    the range from [-2^63] up to [2^63]. *)
Definition int64 (z : Z) : Z := (z + 2 ^ 63) mod 2 ^ 64 - 2 ^ 63.

(** [groupby(...).agg('sum')] on the [int64] column of one group: the
    values are added one after the other into an [int64]. *)
Definition groupby_sum_int (l : list Z) : Z :=
  foldl (λ acc x, int64 (acc + x)) 0 l.

(** [groupby('Product_ID')]: one group per distinct key, keys ascending,
    each group holding its rows in frame order. *)
Definition groupby_Product_ID (rows : list Sale) : list (Z * list Sale) :=
  (λ k, (k, filter (λ s, sale_Product_ID s = k) rows)) <$>
    merge_sort Z.le (unique (sale_Product_ID <$> rows)).

(** Lines 134-138: the three named aggregations of one group. *)
Definition aggregate {num : Numerics} (g : Z * list Sale) : Popularity :=
  mkPopularity g.1
    (groupby_sum_int (Purchase_Quantity <$> g.2))
    (groupby_sum (sale_Amount <$> g.2))
    (groupby_mean (Unit_Price <$> g.2)).

(** [sort_values(by=..., ascending=False)] with pandas' default quicksort:
    the order of rows with equal keys is not specified, so the routine is
    taken as given. *)
Class Sorting : Type := {
  sort_values_desc : ∀ A : Type, (A → Q) → list A → list A
}.

(** What is known of it: it reorders, and no key is below a later one. *)
Definition sorts_descending (srt : Sorting) : Prop :=
  ∀ (A : Type) (key : A → Q) (l : list A),
    sort_values_desc A key l ≡ₚ l ∧
    StronglySorted (λ a b, (key b <= key a)%Q) (sort_values_desc A key l).

(** Lines 134-140: [groupby] raises on a missing key, [agg] on the missing
    columns it is asked to aggregate. *)
Definition analyze_popularity {num : Numerics} {srt : Sorting}
    (data : SalesFrame)
    : Result (list Popularity) :=
  if decide ("Product_ID" ∈ sales_columns data) then
    match filter (λ l, l ∉ sales_columns data)
            ["Purchase_Amount"; "Purchase_Quantity"; "Unit_Price"] with
    | [] =>
        Ok (sort_values_desc Popularity total_revenue
              (aggregate <$> groupby_Product_ID (sales data)))
    | missing => Err (KeyError missing)
    end
  else Err (KeyError ["Product_ID"]).

(** A sorting routine to run the table on: the stable one. *)
Definition stable_sorting : Sorting := {|
  sort_values_desc := λ A key l, fst <$> sorted_desc ((λ a, (a, key a)) <$> l)
|}.

Definition sales_columns_full : list string :=
  ["Customer_ID"; "Product_ID"; "Category"; "Subcategory"; "Purchase_Amount";
   "Purchase_Quantity"; "Unit_Price"].

Definition sample_sales : SalesFrame := mkSales sales_columns_full
  [ mkSale (mkPurchase 7 2 "Electronics" "Headphones" (60 # 1) 0) 1 (60 # 1);
    mkSale (mkPurchase 8 1 "Electronics" "Laptops" (2400 # 1) 0) 2 (1200 # 1);
    mkSale (mkPurchase 9 2 "Electronics" "Headphones" (90 # 1) 0) 2 (45 # 1) ].

(** The sum of integers, without wrap-around. *)
Definition sum_Z (l : list Z) : Z := foldr Z.add 0 l.

(** ** Further notions *)

(** Two frames that show the recommender the same thing: the same five
    labels are present and the rows agree on the five columns. *)
Definition same_row (r1 r2 : Purchase) : Prop :=
  Customer_ID r1 = Customer_ID r2 ∧ Product_ID r1 = Product_ID r2 ∧
  Category r1 = Category r2 ∧ Subcategory r1 = Subcategory r2 ∧
  Purchase_Amount r1 = Purchase_Amount r2.

Definition same_view (d1 d2 : DataFrame) : Prop :=
  (∀ l, l ∈ recommender_labels → l ∈ columns d1 ↔ l ∈ columns d2) ∧
  Forall2 same_row (rows d1) (rows d2).

(** The labels the recommender reads before it writes a reason. *)
Definition lookup_labels : list string :=
  ["Customer_ID"; "Product_ID"; "Category"; "Subcategory"].

(** Two outcomes that are the same error, or related values. *)
Definition related {A} (R : A → A → Prop) (r1 r2 : Result A) : Prop :=
  match r1, r2 with
  | Ok a1, Ok a2 => R a1 a2
  | Err e1, Err e2 => e1 = e2
  | _, _ => False
  end.

(** The calls of a training run, in order. *)
Definition training_events : list Event :=
  [EvGridSearch; EvSplit; EvFit; EvDump "model.pkl"; EvDump "best_params.pkl"].

Definition loading_events : list Event :=
  [EvLoad "model.pkl"; EvLoad "best_params.pkl"].

(** ** Further sample inputs *)

Definition sample_top : list Recommendation :=
  Eval vm_compute in
    match get_recommendations_for_user (num := exact_sums)
        7 1 sample_data sample_model with
    | Ok recs => recs
    | Err _ => []
    end.

(** A frame without the category column. *)
Definition no_category_data : DataFrame :=
  mkFrame ["Customer_ID"; "Product_ID"; "Subcategory"; "Purchase_Amount"]
    (rows sample_data).

(** The first run of the trainer in a directory without artifacts. *)
Definition first_run : Result (Model * DataFrame) * World :=
  Eval cbv in
    train_and_save_model (ext := sample_externals) sample_data empty_world.

(** The first run on the file system without room for the parameters. *)
Definition half_written_run : Result (Model * DataFrame) * World :=
  Eval cbv in
    train_and_save_model (ext := full_disk_externals) sample_data empty_world.

Definition sample_table : list Popularity :=
  Eval vm_compute in
    match analyze_popularity (num := exact_sums) (srt := stable_sorting)
            sample_sales with
    | Ok table => table
    | Err _ => []
    end.

(** * Facts *)

(** ** Lists *)

Section unique.
Context {A : Type} `{EqDecision A}.
Implicit Types l : list A.

Lemma elem_of_unique l x : x ∈ unique l ↔ x ∈ l.
Proof.
  induction l as [|y l IH]; simpl; [done|].
  rewrite !elem_of_cons, list_elem_of_filter, IH.
  destruct (decide (x = y)); tauto.
Qed.

Lemma NoDup_unique l : NoDup (unique l).
Proof.
  induction l as [|y l IH]; simpl; [constructor|].
  constructor; [|by apply NoDup_filter].
  rewrite list_elem_of_filter. by intros [? _].
Qed.

Lemma filter_filter_comm (P R : A → Prop)
    `{∀ x, Decision (P x)} `{∀ x, Decision (R x)} l :
  filter P (filter R l) = filter R (filter P l).
Proof.
  induction l as [|y l IH]; [done|].
  rewrite !filter_cons.
  destruct (decide (R y)), (decide (P y)); rewrite ?filter_cons;
    repeat case_decide; try done; by rewrite IH.
Qed.

Lemma unique_filter (P : A → Prop) `{∀ x, Decision (P x)} l :
  unique (filter P l) = filter P (unique l).
Proof.
  induction l as [|y l IH]; [done|].
  simpl. rewrite !filter_cons. destruct (decide (P y)); simpl.
  - rewrite IH. f_equal. apply filter_filter_comm.
  - rewrite IH, filter_filter_comm.
    symmetry. apply list_filter_filter_r. by intros x Hx ->.
Qed.
End unique.

(** ** Sorting by descending estimate *)

Lemma Qltb_lt a b : Qltb a b = true ↔ (a < b)%Q.
Proof.
  unfold Qltb. rewrite negb_true_iff, <- not_true_iff_false, Qle_bool_iff.
  split; [apply Qnot_le_lt | apply Qlt_not_le].
Qed.

Lemma Qltb_ge a b : Qltb a b = false ↔ (b <= a)%Q.
Proof. unfold Qltb. by rewrite negb_false_iff, Qle_bool_iff. Qed.

Section sorting.
Context {A : Type}.
Implicit Types (x : A * Q) (l : list (A * Q)).

Lemma insert_desc_perm x l : insert_desc x l ≡ₚ x :: l.
Proof.
  induction l as [|y l IH]; simpl; [done|].
  destruct (Qltb x.2 y.2); [|done].
  by rewrite IH, Permutation_swap.
Qed.

Lemma sorted_desc_perm l : sorted_desc l ≡ₚ l.
Proof.
  induction l as [|x l IH]; simpl; [done|].
  by rewrite insert_desc_perm, IH.
Qed.

Lemma insert_desc_sorted x l :
  StronglySorted by_estimate l → StronglySorted by_estimate (insert_desc x l).
Proof.
  induction 1 as [|y l Hl IH Hy]; simpl.
  - repeat constructor.
  - destruct (Qltb x.2 y.2) eqn:E.
    + constructor; [done|].
      rewrite insert_desc_perm. constructor; [|done].
      apply Qltb_lt in E. by apply Qlt_le_weak.
    + apply Qltb_ge in E.
      constructor; [by constructor|].
      constructor; [done|].
      eapply Forall_impl; [exact Hy|].
      intros z Hz. unfold by_estimate in *. by apply Qle_trans with y.2.
Qed.

Lemma sorted_desc_sorted l : StronglySorted by_estimate (sorted_desc l).
Proof.
  induction l as [|x l IH]; simpl; [constructor|].
  by apply insert_desc_sorted.
Qed.

(** An inserted element only moves past elements with a strictly larger
    estimate. *)
Lemma insert_desc_filter v x l :
  filter (λ p, p.2 == v)%Q (insert_desc x l)
  = filter (λ p, p.2 == v)%Q (x :: l).
Proof.
  induction l as [|y l IH]; simpl; [done|].
  destruct (Qltb x.2 y.2) eqn:E; [|done].
  apply Qltb_lt in E.
  rewrite filter_cons, IH, !filter_cons.
  destruct (decide (y.2 == v)%Q) as [Hy|Hy], (decide (x.2 == v)%Q) as [Hx|Hx];
    try done.
  rewrite Hx, Hy in E. by apply Qlt_irrefl in E.
Qed.

Lemma sorted_desc_stable v l :
  filter (λ p, p.2 == v)%Q (sorted_desc l) = filter (λ p, p.2 == v)%Q l.
Proof.
  induction l as [|x l IH]; simpl; [done|].
  by rewrite insert_desc_filter, !filter_cons, IH.
Qed.
End sorting.

(** ** Slices *)

Lemma slice_to_prefix {A} n (l : list A) : slice_to n l `prefix_of` l.
Proof. unfold slice_to. destruct (0 <=? n); apply prefix_take. Qed.

Lemma slice_to_length {A} n (l : list A) :
  0 ≤ n → Z.of_nat (length (slice_to n l)) = Z.min n (Z.of_nat (length l)).
Proof.
  intros Hn. unfold slice_to.
  destruct (Z.leb_spec 0 n); [|lia].
  rewrite length_take. lia.
Qed.

Lemma slice_to_length_neg {A} n (l : list A) :
  n < 0 →
  Z.of_nat (length (slice_to n l)) = Z.max 0 (Z.of_nat (length l) + n).
Proof.
  intros Hn. unfold slice_to.
  destruct (Z.leb_spec 0 n); [lia|].
  rewrite length_take. lia.
Qed.

Lemma prefix_filter {A} (P : A → Prop) `{∀ x, Decision (P x)} (l k : list A) :
  l `prefix_of` k → filter P l `prefix_of` filter P k.
Proof. intros [t ->]. rewrite filter_app. by eexists. Qed.

Lemma prefix_elem_of {A} (l k : list A) x : l `prefix_of` k → x ∈ l → x ∈ k.
Proof. intros [t ->] ?. apply elem_of_app. by left. Qed.

Lemma prefix_NoDup {A} (l k : list A) : l `prefix_of` k → NoDup k → NoDup l.
Proof. intros [t ->]. by intros [? _]%NoDup_app. Qed.

Lemma prefix_StronglySorted {A} (R : relation A) (l k : list A) :
  l `prefix_of` k → StronglySorted R k → StronglySorted R l.
Proof. intros [t ->]. apply StronglySorted_app_1_l. Qed.

(** ** The dict of product details *)

Lemma to_dict_snoc details t :
  to_dict (details ++ [t]) = <[t.1.1 := (t.1.2, t.2)]> (to_dict details).
Proof. unfold to_dict. by rewrite foldl_snoc. Qed.

(** The entry of a product is written by the last of its rows. *)
Lemma to_dict_lookup details p :
  to_dict details !! p
  = (λ t, (t.1.2, t.2)) <$> last (filter (λ t, t.1.1 = p) details).
Proof.
  induction details as [|t details IH] using rev_ind; [done|].
  rewrite to_dict_snoc, filter_app, filter_cons, filter_nil.
  destruct (decide (t.1.1 = p)) as [<-|Hne].
  - by rewrite lookup_insert_eq, last_snoc.
  - by rewrite lookup_insert_ne, app_nil_r.
Qed.

(** ** Reading a successful run backwards *)

Lemma bindR_Ok {A B} (k : A → Result B) (r : Result A) b :
  (r ≫= k) = Ok b ↔ ∃ a, r = Ok a ∧ k a = Ok b.
Proof.
  unfold mbind, Result_bind. destruct r as [a|e]; simpl.
  - split; [by exists a | by intros (a' & [= ->] & ?)].
  - split; [done | by intros (a' & ? & ?)].
Qed.

Ltac bind_inv H :=
  repeat match type of H with
  | (_ ≫= _) = Ok _ =>
      let a := fresh "a" in
      let E := fresh "E" in
      apply bindR_Ok in H; destruct H as (a & E & H)
  end.

Section recommender_facts.
Context {num : Numerics}.

Lemma mapR_Ok {A B} (f : A → Result B) l l' :
  mapR f l = Ok l' → Forall2 (λ x y, f x = Ok y) l l'.
Proof.
  revert l'. induction l as [|x l IH]; intros l' H; simpl in H.
  - injection H as <-. constructor.
  - bind_inv H. injection H as <-. constructor; [done|]. by apply IH.
Qed.

Lemma mapR_total {A B} (f : A → Result B) l :
  Forall (λ x, ∃ y, f x = Ok y) l → ∃ l', mapR f l = Ok l'.
Proof.
  induction 1 as [|x l [y Hy] _ [l' IH]]; simpl; [by eexists|].
  rewrite Hy; simpl. rewrite IH; simpl. by eexists.
Qed.

Lemma getitem_Ok {A} data label (field : Purchase → A) v :
  getitem data label field = Ok v →
  label ∈ columns data ∧ v = field <$> rows data.
Proof. unfold getitem. case_decide; [|done]. by intros [= <-]. Qed.

Lemma getitems_Ok {A} data labels (fields : Purchase → A) v :
  getitems data labels fields = Ok v →
  Forall (λ l, l ∈ columns data) labels ∧ v = fields <$> rows data.
Proof.
  unfold getitems.
  destruct (filter _ labels) as [|l ls] eqn:E; [|done].
  intros [= <-]. split; [|done].
  apply Forall_forall. intros l Hl.
  destruct (decide (l ∈ columns data)) as [|Hn]; [done|].
  assert (l ∈ filter (λ l, l ∉ columns data) labels) as Hin
    by by apply list_elem_of_filter.
  rewrite E in Hin. by apply elem_of_nil in Hin.
Qed.

Lemma select_Ok {A} `{EqDecision A} data label (field : Purchase → A) v sub :
  select data label field v = Ok sub →
  label ∈ columns data ∧ columns sub = columns data ∧
  rows sub = filter (λ r, field r = v) (rows data).
Proof. unfold select. case_decide; [|done]. by intros [= <-]. Qed.

Lemma getitem_present {A} data label (field : Purchase → A) :
  label ∈ columns data → getitem data label field = Ok (field <$> rows data).
Proof. intros. unfold getitem. by rewrite decide_True. Qed.

Lemma getitem_missing {A} data label (field : Purchase → A) :
  label ∉ columns data → getitem data label field = Err (KeyError [label]).
Proof. intros. unfold getitem. by rewrite decide_False. Qed.

Lemma select_present {A} `{EqDecision A} data label (field : Purchase → A) v :
  label ∈ columns data →
  select data label field v
  = Ok (mkFrame (columns data) (filter (λ r, field r = v) (rows data))).
Proof. intros. unfold select. by rewrite decide_True. Qed.

Lemma getitems_present {A} data labels (fields : Purchase → A) :
  Forall (λ l, l ∈ columns data) labels →
  getitems data labels fields = Ok (fields <$> rows data).
Proof.
  intros Hall. unfold getitems.
  replace (filter (λ l, l ∉ columns data) labels) with (@nil string); [done|].
  symmetry. induction Hall as [|l ls Hl _ IH]; [done|].
  by rewrite filter_cons_False; [|intros Hn; by apply Hn].
Qed.

(** The products that are scored, read off the rows. *)
Lemma items_to_predict_Ok user_id data items :
  items_to_predict user_id data = Ok items →
  items = filter
            (λ item, item ∉ unique (Product_ID <$>
                       filter (λ r, Customer_ID r = user_id) (rows data)))
            (unique (Product_ID <$> rows data)).
Proof.
  unfold items_to_predict. intros H. bind_inv H.
  apply getitem_Ok in E as [_ ->].
  apply select_Ok in E0 as (_ & _ & Hrows).
  apply getitem_Ok in E1 as [_ ->].
  injection H as <-. by rewrite Hrows.
Qed.

Lemma product_details_dict_Ok data d :
  product_details_dict data = Ok d →
  d = to_dict (unique ((λ r, (Product_ID r, Category r, Subcategory r))
                         <$> rows data)).
Proof.
  unfold product_details_dict. intros H. bind_inv H.
  apply getitems_Ok in E as [_ ->]. by injection H as <-.
Qed.

Lemma detail_of_Ok d p det :
  detail_of d p = Ok det →
  d !! p.1 = Some (det_Category det, det_Subcategory det) ∧
  det_Product_ID det = p.1 ∧ det_Estimated_Rating det = p.2.
Proof.
  unfold detail_of. destruct (d !! p.1) as [[c s]|]; [|done].
  by intros [= <-].
Qed.

Lemma filter_nonempty {A} (P : A → Prop) `{∀ x, Decision (P x)} (l : list A) :
  filter P l ≠ [] ↔ ∃ x, x ∈ l ∧ P x.
Proof.
  split.
  - destruct (filter P l) as [|x k] eqn:E; [done|]. intros _.
    assert (x ∈ filter P l) as Hx by (rewrite E; left).
    apply list_elem_of_filter in Hx. exists x. tauto.
  - intros (x & Hx & HP) E.
    assert (x ∈ filter P l) as Hin by by apply list_elem_of_filter.
    rewrite E in Hin. by apply elem_of_nil in Hin.
Qed.

Lemma bought_in_category_filter user_id data category :
  filter (λ r, Category r = category)
    (filter (λ r, Customer_ID r = user_id) (rows data)) ≠ []
  ↔ bought_in_category user_id data category.
Proof.
  rewrite filter_nonempty. unfold bought_in_category.
  split; intros (r & Hr & H); exists r.
  - apply list_elem_of_filter in Hr. tauto.
  - rewrite list_elem_of_filter. tauto.
Qed.

Lemma bought_in_subcategory_filter user_id data category subcategory :
  filter (λ r, Subcategory r = subcategory)
    (filter (λ r, Category r = category)
       (filter (λ r, Customer_ID r = user_id) (rows data))) ≠ []
  ↔ bought_in_subcategory user_id data category subcategory.
Proof.
  rewrite filter_nonempty. unfold bought_in_subcategory.
  split; intros (r & Hr & H); exists r.
  - rewrite !list_elem_of_filter in Hr. tauto.
  - rewrite !list_elem_of_filter. tauto.
Qed.

Lemma revenue_filter data category subcategory :
  Series_sum (Purchase_Amount <$>
    filter (λ r, Subcategory r = subcategory)
      (filter (λ r, Category r = category) (rows data)))
  = revenue data category subcategory.
Proof.
  unfold revenue. rewrite list_filter_filter. do 2 f_equal.
  apply list_filter_iff. tauto.
Qed.

(** One pass of the loop: the fields are kept and the reason is the
    sentence of up to four clauses. *)
Lemma add_reason_Ok user_id data det r :
  add_reason user_id data det = Ok r →
  rec_Product_ID r = det_Product_ID det ∧
  rec_Estimated_Rating r = det_Estimated_Rating det ∧
  rec_Category r = det_Category det ∧
  rec_Subcategory r = det_Subcategory det ∧
  ∃ c1 c2,
    rec_Reason r
    = reason_sentence
        (c1 ++ c2 ++
         [popularity_clause
            (revenue data (det_Category det) (det_Subcategory det));
          rating_clause (det_Estimated_Rating det)])%list ∧
    (bought_in_category user_id data (det_Category det) ∧
       c1 = [interest_clause (det_Category det)]
     ∨ ¬ bought_in_category user_id data (det_Category det) ∧ c1 = []) ∧
    (bought_in_subcategory user_id data (det_Category det)
         (det_Subcategory det) ∧
       c2 = [subcategory_clause (det_Subcategory det)]
     ∨ ¬ bought_in_subcategory user_id data (det_Category det)
           (det_Subcategory det) ∧ c2 = []).
Proof.
  unfold add_reason. intros H. bind_inv H.
  apply select_Ok in E as (_ & Hc1 & Hr1).
  apply select_Ok in E0 as (_ & Hc2 & Hr2).
  apply select_Ok in E1 as (_ & Hc3 & Hr3).
  apply select_Ok in E2 as (_ & Hc4 & Hr4).
  apply select_Ok in E3 as (_ & Hc5 & Hr5).
  apply getitem_Ok in E4 as [_ ->].
  injection H as <-; simpl.
  rewrite Hr2, Hr1, revenue_filter, Hr5, Hr4, Hr3.
  repeat split; try done.
  pose proof (bought_in_category_filter user_id data (det_Category det))
    as Hcat.
  pose proof (bought_in_subcategory_filter user_id data (det_Category det)
                (det_Subcategory det)) as Hsub.
  destruct (decide (filter (λ r, Category r = det_Category det)
                      (filter (λ r, Customer_ID r = user_id) (rows data))
                    = [])) as [E1|E1];
  destruct (decide (filter (λ r, Subcategory r = det_Subcategory det)
                      (filter (λ r, Category r = det_Category det)
                         (filter (λ r, Customer_ID r = user_id) (rows data)))
                    = [])) as [E2|E2].
  - exists [], []. split; [reflexivity|]. split; right; (split; [tauto|done]).
  - exists [], [subcategory_clause (det_Subcategory det)].
    split; [reflexivity|].
    split; [right | left]; (split; [tauto|done]).
  - exists [interest_clause (det_Category det)], [].
    split; [reflexivity|].
    split; [left | right]; (split; [tauto|done]).
  - exists [interest_clause (det_Category det)],
           [subcategory_clause (det_Subcategory det)].
    split; [reflexivity|]. split; left; (split; [tauto|done]).
Qed.

Lemma add_reason_total user_id data det :
  Forall (λ l, l ∈ columns data) recommender_labels →
  ∃ r, add_reason user_id data det = Ok r.
Proof.
  intros Hall. unfold recommender_labels in Hall.
  repeat (apply Forall_cons in Hall as [? Hall]).
  unfold add_reason.
  repeat (rewrite select_present by done; simpl).
  rewrite getitem_present by done; simpl. by eexists.
Qed.

(** A successful call returns, for each kept prediction in order, the
    recommendation built from it. *)
Lemma get_recommendations_Ok user_id n data model recs :
  get_recommendations_for_user user_id n data model = Ok recs →
  ∃ items d,
    items_to_predict user_id data = Ok items ∧
    product_details_dict data = Ok d ∧
    Forall2
      (λ p r, ∃ det, detail_of d p = Ok det ∧
                     add_reason user_id data det = Ok r)
      (top_predictions user_id n model items) recs.
Proof.
  unfold get_recommendations_for_user. intros H. bind_inv H.
  exists a, a0. split; [done|]. split; [done|].
  apply mapR_Ok in E1, H.
  clear E E0. revert recs H.
  induction E1 as [|p det ps dets Hp _ IH]; intros recs H.
  - inversion H. constructor.
  - inversion H as [|? r ? recs' Hr Hrest]; subst.
    constructor; [by exists det | by apply IH].
Qed.

Lemma get_recommendations_pairs user_id n data model recs :
  get_recommendations_for_user user_id n data model = Ok recs →
  ∃ items,
    items_to_predict user_id data = Ok items ∧
    pair_of <$> recs = top_predictions user_id n model items.
Proof.
  intros (items & d & Hitems & _ & Hall)%get_recommendations_Ok.
  exists items. split; [done|].
  induction Hall as [|p r ps recs (det & Hdet & Hr) _ IH]; [done|].
  rewrite fmap_cons, IH. f_equal.
  apply detail_of_Ok in Hdet as (_ & Hp & He).
  apply add_reason_Ok in Hr as (Hp' & He' & _).
  unfold pair_of. rewrite Hp', He', Hp, He. by destruct p.
Qed.

Lemma prefix_fmap {A B} (f : A → B) (l k : list A) :
  l `prefix_of` k → f <$> l `prefix_of` f <$> k.
Proof. intros [t ->]. rewrite fmap_app. by eexists. Qed.

Lemma StronglySorted_of_fmap {A B} (f : A → B) (R : relation B) (l : list A) :
  StronglySorted R (f <$> l) → StronglySorted (λ a b, R (f a) (f b)) l.
Proof.
  induction l as [|x l IH]; [constructor|].
  rewrite fmap_cons. intros [Hx Hl]%StronglySorted_cons.
  constructor; [by apply IH|].
  rewrite Forall_fmap in Hx. exact Hx.
Qed.

Lemma fst_score user_id model items : fst <$> score user_id model items = items.
Proof.
  unfold score. rewrite <- list_fmap_compose.
  rewrite <- (list_fmap_id items) at 2. by apply list_fmap_ext.
Qed.

Lemma elem_of_score user_id model items p :
  p ∈ score user_id model items ↔ p.1 ∈ items ∧ p.2 = model user_id p.1.
Proof.
  unfold score. rewrite list_elem_of_fmap. split.
  - intros (i & -> & Hi). simpl. by split.
  - intros [Hi He]. exists p.1. split; [|done]. destruct p; simpl in *; congruence.
Qed.

Lemma top_predictions_prefix user_id n model items :
  top_predictions user_id n model items
  `prefix_of` sorted_desc (score user_id model items).
Proof. apply slice_to_prefix. Qed.

Lemma top_predictions_elem_of user_id n model items p :
  p ∈ top_predictions user_id n model items →
  p.1 ∈ items ∧ p.2 = model user_id p.1.
Proof.
  intros Hp. apply elem_of_score.
  rewrite <- (sorted_desc_perm (score user_id model items)).
  eapply prefix_elem_of; [apply top_predictions_prefix | done].
Qed.

Lemma items_NoDup user_id data items :
  items_to_predict user_id data = Ok items → NoDup items.
Proof. intros ->%items_to_predict_Ok. apply NoDup_filter, NoDup_unique. Qed.

Lemma items_elem_of user_id data items p :
  items_to_predict user_id data = Ok items →
  p ∈ items ↔ p ∈ Product_ID <$> rows data ∧ ¬ purchased user_id data p.
Proof.
  intros ->%items_to_predict_Ok.
  rewrite list_elem_of_filter, !elem_of_unique, list_elem_of_fmap.
  unfold purchased. split.
  - intros [Hn Hp]. split; [done|]. intros (r & Hr & Hu & Hpr).
    apply Hn. exists r. split; [done|]. by apply list_elem_of_filter.
  - intros [Hp Hn]. split; [|done]. intros (r & -> & Hr).
    apply list_elem_of_filter in Hr as [Hu Hr]. apply Hn. by exists r.
Qed.

(** ** The recommender returns *)

Lemma items_to_predict_total user_id data :
  Forall (λ l, l ∈ columns data) recommender_labels →
  ∃ items, items_to_predict user_id data = Ok items.
Proof.
  intros Hall. unfold recommender_labels in Hall.
  repeat (apply Forall_cons in Hall as [? Hall]).
  unfold items_to_predict.
  rewrite getitem_present by done; simpl.
  rewrite select_present by done; simpl.
  rewrite getitem_present by done; simpl. by eexists.
Qed.

Lemma product_details_dict_total data :
  Forall (λ l, l ∈ columns data) recommender_labels →
  ∃ d, product_details_dict data = Ok d.
Proof.
  intros Hall. unfold recommender_labels in Hall.
  repeat (apply Forall_cons in Hall as [? Hall]).
  unfold product_details_dict.
  rewrite getitems_present by (repeat constructor; done). simpl. by eexists.
Qed.

(** Every product of the corpus has an entry in the dict. *)
Lemma product_details_dict_lookup data d p :
  product_details_dict data = Ok d →
  p ∈ Product_ID <$> rows data → is_Some (d !! p).
Proof.
  intros ->%product_details_dict_Ok Hp.
  rewrite to_dict_lookup. apply fmap_is_Some, last_is_Some, filter_nonempty.
  apply list_elem_of_fmap in Hp as (r & -> & Hr).
  exists (Product_ID r, Category r, Subcategory r). split; [|done].
  apply elem_of_unique, list_elem_of_fmap. by exists r.
Qed.

(** On a frame that has the five columns the call succeeds: the lookup in
    the dict of details cannot miss. *)
Lemma get_recommendations_total user_id n data model :
  Forall (λ l, l ∈ columns data) recommender_labels →
  ∃ recs, get_recommendations_for_user user_id n data model = Ok recs.
Proof.
  intros Hall.
  destruct (items_to_predict_total user_id data Hall) as [items Hitems].
  destruct (product_details_dict_total data Hall) as [d Hd].
  unfold get_recommendations_for_user. rewrite Hitems, Hd; simpl.
  destruct (mapR_total (detail_of d) (top_predictions user_id n model items))
    as [dets Hdets].
  { apply Forall_forall. intros p [Hp _]%top_predictions_elem_of.
    apply (items_elem_of _ _ _ p.1 Hitems) in Hp as [Hp _].
    destruct (product_details_dict_lookup _ _ _ Hd Hp) as [[c s] Hcs].
    unfold detail_of. rewrite Hcs. by eexists. }
  rewrite Hdets; simpl.
  apply mapR_total, Forall_forall. intros det _.
  by apply add_reason_total.
Qed.

(** ** The claims on [get_recommendations_for_user] *)

(** C1. The products that are scored are exactly the product ids of the
    corpus that the customer has no purchase row for, each once; a
    recommended product is one of them, so it is not in the customer's
    purchase history; and for a customer without rows every product id of
    the corpus is scored. *)
Theorem C1_scored_products_exclude_purchases user_id n data model :
  (∀ items, items_to_predict user_id data = Ok items →
     (∀ p, p ∈ items ↔
           p ∈ Product_ID <$> rows data ∧ ¬ purchased user_id data p) ∧
     ((∀ r, r ∈ rows data → Customer_ID r ≠ user_id) →
      ∀ p, p ∈ Product_ID <$> rows data → p ∈ items)) ∧
  (∀ recs, get_recommendations_for_user user_id n data model = Ok recs →
     ∃ items, items_to_predict user_id data = Ok items ∧
       ∀ r, r ∈ recs →
         rec_Product_ID r ∈ items ∧
         ¬ purchased user_id data (rec_Product_ID r)).
Proof.
  split.
  - intros items Hitems. split.
    + intros p. by apply items_elem_of.
    + intros Habsent p Hp. apply (items_elem_of _ _ _ p Hitems).
      split; [done|]. intros (r & Hr & Hu & _). by apply (Habsent r).
  - intros recs (items & Hitems & Hpairs)%get_recommendations_pairs.
    exists items. split; [done|]. intros r Hr.
    assert (pair_of r ∈ top_predictions user_id n model items) as Hp.
    { rewrite <- Hpairs. by apply list_elem_of_fmap_2. }
    apply top_predictions_elem_of in Hp as [Hp _]. simpl in Hp.
    split; [done|]. by apply (items_elem_of _ _ _ _ Hitems) in Hp as [_ ?].
Qed.

(** C10. No product id occurs twice in the returned list. *)
Theorem C10_products_distinct user_id n data model recs :
  get_recommendations_for_user user_id n data model = Ok recs →
  NoDup (rec_Product_ID <$> recs).
Proof.
  intros (items & Hitems & Hpairs)%get_recommendations_pairs.
  replace (rec_Product_ID <$> recs) with (fst <$> (pair_of <$> recs))
    by (rewrite <- list_fmap_compose; by apply list_fmap_ext).
  rewrite Hpairs.
  eapply prefix_NoDup.
  { apply prefix_fmap, top_predictions_prefix. }
  rewrite sorted_desc_perm, fst_score. by eapply items_NoDup.
Qed.

(** C4. The returned list is non-increasing in the estimated rating, and
    the recommendations whose estimates equal any given value come in the
    order in which their products were scored. *)
Theorem C4_sorted_and_stable user_id n data model recs :
  get_recommendations_for_user user_id n data model = Ok recs →
  StronglySorted
    (λ a b, (rec_Estimated_Rating b <= rec_Estimated_Rating a)%Q) recs ∧
  ∃ items, items_to_predict user_id data = Ok items ∧
    ∀ v, filter (λ p, p.2 == v)%Q (pair_of <$> recs)
         `prefix_of` filter (λ p, p.2 == v)%Q (score user_id model items).
Proof.
  intros (items & Hitems & Hpairs)%get_recommendations_pairs. split.
  - apply (StronglySorted_of_fmap pair_of by_estimate).
    rewrite Hpairs. eapply prefix_StronglySorted.
    + apply top_predictions_prefix.
    + apply sorted_desc_sorted.
  - exists items. split; [done|]. intros v.
    rewrite Hpairs, <- (sorted_desc_stable v (score user_id model items)).
    apply prefix_filter, top_predictions_prefix.
Qed.

(** C5, amended. For a count that is not negative the returned list has
    [min n c] entries, where [c] is the number of products that are scored:
    the distinct products of the corpus that the customer has no purchase
    row for.  No error comes from a short list: on a frame with the five
    columns the call returns. *)
Theorem C5_length_for_nonnegative_count user_id n data model :
  0 ≤ n →
  (∀ recs, get_recommendations_for_user user_id n data model = Ok recs →
     ∃ items, items_to_predict user_id data = Ok items ∧
       NoDup items ∧
       (∀ p, p ∈ items ↔
             p ∈ Product_ID <$> rows data ∧ ¬ purchased user_id data p) ∧
       Z.of_nat (length recs) = Z.min n (Z.of_nat (length items))) ∧
  (Forall (λ l, l ∈ columns data) recommender_labels →
   ∃ recs, get_recommendations_for_user user_id n data model = Ok recs).
Proof.
  intros Hn. split; [|apply get_recommendations_total].
  intros recs (items & Hitems & Hpairs)%get_recommendations_pairs.
  exists items. split; [done|].
  split; [by eapply items_NoDup|].
  split; [intros p; by apply items_elem_of|].
  rewrite <- (length_fmap pair_of), Hpairs.
  unfold top_predictions. rewrite slice_to_length by done.
  rewrite (Permutation_length (sorted_desc_perm _)).
  unfold score. by rewrite length_fmap.
Qed.

(** A negative count drops that many entries from the end of the ranking. *)
Lemma length_for_negative_count user_id n data model recs :
  n < 0 →
  get_recommendations_for_user user_id n data model = Ok recs →
  ∃ items, items_to_predict user_id data = Ok items ∧
    Z.of_nat (length recs) = Z.max 0 (Z.of_nat (length items) + n).
Proof.
  intros Hn (items & Hitems & Hpairs)%get_recommendations_pairs.
  exists items. split; [done|].
  rewrite <- (length_fmap pair_of), Hpairs.
  unfold top_predictions. rewrite slice_to_length_neg by done.
  rewrite (Permutation_length (sorted_desc_perm _)).
  unfold score. by rewrite length_fmap.
Qed.

(** ** Details and reasons *)

Lemma filter_fmap {A B} (f : A → B) (P : B → Prop) `{∀ y, Decision (P y)}
    (l : list A) :
  filter P (f <$> l) = f <$> filter (P ∘ f) l.
Proof.
  induction l as [|x l IH]; [done|].
  rewrite fmap_cons, !filter_cons, IH. simpl.
  by destruct (decide (P (f x))).
Qed.

(** [unique] commutes with a function that is injective on the list. *)
Lemma unique_fmap {A B} `{EqDecision A} `{EqDecision B} (f : A → B)
    (l : list A) :
  (∀ x y, x ∈ l → y ∈ l → f x = f y → x = y) →
  unique (f <$> l) = f <$> unique l.
Proof.
  induction l as [|x l IH]; intros Hinj; [done|].
  rewrite fmap_cons. cbn [unique]. rewrite fmap_cons. f_equal.
  rewrite IH by (intros ????; apply Hinj; by right).
  rewrite filter_fmap. f_equal.
  assert (∀ k : list A, (∀ z, z ∈ k → z ∈ l) →
            filter ((λ y, y ≠ f x) ∘ f) k = filter (λ y, y ≠ x) k) as Hk.
  { induction k as [|z k IHk]; intros Hsub; [done|].
    rewrite !filter_cons, IHk by (intros ??; apply Hsub; by right). simpl.
    destruct (decide (f z ≠ f x)) as [Hne|Heq], (decide (z ≠ x)) as [Hne'|Heq'];
      try done.
    - apply dec_stable in Heq'. by subst.
    - apply dec_stable in Heq. exfalso. apply Hne'.
      apply Hinj; [right; apply Hsub; left | left | done]. }
  apply Hk. intros z. by rewrite elem_of_unique.
Qed.

(** A list of equal elements has one distinct element: its first. *)
Lemma last_unique_constant {A} `{EqDecision A} (l : list A) :
  (∀ x y, x ∈ l → y ∈ l → x = y) → last (unique l) = head l.
Proof.
  destruct l as [|x l]; [done|]. intros Hconst. simpl.
  replace (filter (λ y, y ≠ x) (unique l)) with (@nil A); [reflexivity|].
  symmetry. destruct (filter _ (unique l)) as [|y k] eqn:E; [done|].
  assert (y ∈ filter (λ y, y ≠ x) (unique l)) as Hy by (rewrite E; left).
  apply list_elem_of_filter in Hy as [Hne Hy].
  rewrite elem_of_unique in Hy.
  exfalso. apply Hne. apply Hconst; apply elem_of_cons; auto.
Qed.

(** The entry of a product in the dict is the last of the distinct
    (category, subcategory) pairs of its rows. *)
Lemma product_details_dict_last data d p :
  product_details_dict data = Ok d →
  d !! p = last (unique (pairs_of data p)).
Proof.
  intros ->%product_details_dict_Ok.
  rewrite to_dict_lookup, <- unique_filter, filter_fmap, <- fmap_last.
  unfold pairs_of.
  rewrite <- unique_fmap.
  - by rewrite <- list_fmap_compose.
  - intros [[p1 c1] s1] [[p2 c2] s2].
    intros (r1 & [= -> -> ->] & [Hp1 _]%list_elem_of_filter)%list_elem_of_fmap.
    intros (r2 & [= -> -> ->] & [Hp2 _]%list_elem_of_filter)%list_elem_of_fmap.
    simpl in *. congruence.
Qed.

(** C7, amended. The category and subcategory attached to a recommendation
    are the last of the distinct (category, subcategory) pairs found on the
    rows of its product, the pairs taken in the order of their first
    appearance; when all rows of the product carry one pair, that is the
    pair of the first row of the product. *)
Theorem C7_details_last_distinct_pair user_id n data model recs :
  get_recommendations_for_user user_id n data model = Ok recs →
  ∀ r, r ∈ recs →
    last (unique (pairs_of data (rec_Product_ID r)))
    = Some (rec_Category r, rec_Subcategory r) ∧
    ((∀ x y, x ∈ pairs_of data (rec_Product_ID r) →
             y ∈ pairs_of data (rec_Product_ID r) → x = y) →
     head (pairs_of data (rec_Product_ID r))
     = Some (rec_Category r, rec_Subcategory r)).
Proof.
  intros (items & d & _ & Hd & Hall)%get_recommendations_Ok r Hr.
  assert (d !! rec_Product_ID r = Some (rec_Category r, rec_Subcategory r))
    as Hlookup.
  { apply list_elem_of_lookup in Hr as [i Hi].
    destruct (Forall2_lookup_r _ _ _ _ _ Hall Hi)
      as (p & _ & det & Hdet & Hadd).
    apply detail_of_Ok in Hdet as (Hdp & Hp & _).
    apply add_reason_Ok in Hadd as (Hp' & _ & Hc & Hs & _).
    by rewrite Hp', Hp, Hc, Hs. }
  rewrite (product_details_dict_last _ _ _ Hd) in Hlookup.
  split; [done|].
  intros Hconst. by rewrite <- last_unique_constant.
Qed.

(** C2, amended. The reason of a recommendation is the fixed sentence
    around its clauses joined by "; ": the interest clause exactly when the
    customer has a row in the recommendation's category, then the
    subcategory clause exactly when the customer has a row whose category
    and subcategory are both the recommendation's, then the popularity
    clause with the sum, as pandas answers it, of the amounts of all rows
    of that category and subcategory, then the rating clause. *)
Theorem C2_reason_clauses user_id n data model recs :
  get_recommendations_for_user user_id n data model = Ok recs →
  ∀ r, r ∈ recs →
    ∃ c1 c2,
      rec_Reason r
      = "Recommended because " +:+
        join "; "
          (c1 ++ c2 ++
           [popularity_clause
              (revenue data (rec_Category r) (rec_Subcategory r));
            rating_clause (rec_Estimated_Rating r)])%list +:+ "." ∧
      (bought_in_category user_id data (rec_Category r) ∧
         c1 = [interest_clause (rec_Category r)]
       ∨ ¬ bought_in_category user_id data (rec_Category r) ∧ c1 = []) ∧
      (bought_in_subcategory user_id data (rec_Category r) (rec_Subcategory r)
         ∧ c2 = [subcategory_clause (rec_Subcategory r)]
       ∨ ¬ bought_in_subcategory user_id data
             (rec_Category r) (rec_Subcategory r) ∧ c2 = []).
Proof.
  intros (items & d & _ & _ & Hall)%get_recommendations_Ok r Hr.
  apply list_elem_of_lookup in Hr as [i Hi].
  destruct (Forall2_lookup_r _ _ _ _ _ Hall Hi) as (p & _ & det & _ & Hadd).
  apply add_reason_Ok in Hadd
    as (_ & -> & -> & -> & c1 & c2 & Hreason & Hc1 & Hc2).
  by exists c1, c2.
Qed.

End recommender_facts.

(** ** The trainer *)

Lemma Series_min_le_max l lo hi :
  Series_min l = Some lo → Series_max l = Some hi → (lo <= hi)%Q.
Proof.
  destruct l as [|x l]; [done|]. simpl. intros [= <-] [= <-].
  apply Qle_trans with x.
  - clear. revert x. induction l as [|y l IH]; intros x; simpl.
    + apply Qle_refl.
    + eapply Qle_trans; [apply IH | apply Q.le_min_l].
  - clear. revert x. induction l as [|y l IH]; intros x; simpl.
    + apply Qle_refl.
    + eapply Qle_trans; [apply Q.le_max_l | apply IH].
Qed.

(** An error of at most [eps] on a logarithm is a relative error of at
    most [exp eps - 1] on the number. *)
Lemma exp_error_bound (d eps : R) :
  (Rabs d <= eps → Rabs (exp d - 1) <= exp eps - 1)%R.
Proof.
  intros Hd. pose proof (exp_pos d) as Hpos.
  assert (∀ a b, a <= b → exp a <= exp b)%R as Hmono.
  { intros a b [Hlt| ->]; [left; by apply exp_increasing | right; reflexivity]. }
  destruct (Rle_lt_dec 0 d) as [Hsign|Hsign].
  - rewrite (Rabs_pos_eq d) in Hd by done.
    pose proof (Hmono 0%R d Hsign) as H0. rewrite exp_0 in H0.
    pose proof (Hmono d eps Hd).
    rewrite Rabs_pos_eq by lra. lra.
  - rewrite (Rabs_left d) in Hd by done.
    pose proof (Hmono d 0%R ltac:(lra)) as H0. rewrite exp_0 in H0.
    pose proof (Hmono (- d)%R eps Hd) as Hup.
    rewrite exp_Ropp in Hup.
    rewrite Rabs_left1 by lra.
    assert (exp d * / exp d = 1)%R as Hinv by (apply Rinv_r; lra).
    pose proof (Rinv_0_lt_compat _ Hpos).
    nra.
Qed.

(** The round trip of a logarithm that is off by at most [eps]. *)
Lemma round_trip_bound (x s eps : R) :
  (-1 < x → Rabs (s - ln (1 + x)) <= eps →
   Rabs (exp s - 1 - x) <= (1 + x) * (exp eps - 1))%R.
Proof.
  intros Hx Hs.
  replace (exp s - 1 - x)%R
    with ((1 + x) * (exp (s - ln (1 + x)) - 1))%R.
  - rewrite Rabs_mult, (Rabs_pos_eq (1 + x)) by lra.
    apply Rmult_le_compat_l; [lra|]. by apply exp_error_bound.
  - unfold Rminus at 2. rewrite exp_plus, exp_Ropp, exp_ln by lra.
    field. lra.
Qed.

Section trainer_facts.
Context {ext : Externals}.

Lemma rows_annotated data :
  rows (annotated data)
  = (λ r, set_scaled r (log1p (Purchase_Amount r))) <$> rows data.
Proof.
  unfold annotated, setitem_scaled, scaled_amounts; simpl.
  induction (rows data) as [|r l IH]; [done|].
  rewrite !fmap_cons. simpl. by rewrite IH.
Qed.

Lemma columns_annotated data l :
  l ∈ columns data → l ∈ columns (annotated data).
Proof.
  intros Hl. unfold annotated, setitem_scaled; simpl.
  case_decide; [done|]. apply elem_of_app. by left.
Qed.

Lemma scaled_in_annotated data :
  "Purchase_Amount_Scaled" ∈ columns (annotated data).
Proof.
  unfold annotated, setitem_scaled; simpl.
  case_decide; [done|]. apply elem_of_app. right. left.
Qed.

(** Lines 19-23 on a frame that has the three columns. *)
Lemma prepare_present data :
  Forall (λ l, l ∈ columns data) trainer_labels →
  prepare data = Ok (annotated data, dataset_of data).
Proof.
  intros Hall. unfold trainer_labels in Hall.
  repeat (apply Forall_cons in Hall as [? Hall]).
  unfold prepare.
  rewrite getitem_present by done; simpl.
  fold (scaled_amounts data). fold (annotated data).
  rewrite getitem_present by apply scaled_in_annotated; simpl.
  rewrite getitems_present
    by (repeat constructor; auto using columns_annotated, scaled_in_annotated).
  simpl. unfold dataset_of, rating_triples.
  change (zip_with set_scaled (rows data) (scaled_amounts data))
    with (rows (annotated data)).
  rewrite rows_annotated. unfold scaled_amounts.
  by rewrite <- !list_fmap_compose.
Qed.

(** Lines 19-23 on a frame that lacks one of them. *)
Lemma prepare_missing data :
  (∃ l, l ∈ trainer_labels ∧ l ∉ columns data) →
  ∃ labels, prepare data = Err (KeyError labels) ∧ labels ≠ [] ∧
    ∀ l, l ∈ labels → l ∈ trainer_labels ∧ l ∉ columns data.
Proof.
  intros (l0 & Hl0 & Hmiss). unfold prepare.
  destruct (decide ("Purchase_Amount" ∈ columns data)) as [Hamount|Hamount].
  - rewrite (getitem_present data "Purchase_Amount") by done; simpl.
    fold (scaled_amounts data). fold (annotated data).
    rewrite getitem_present by apply scaled_in_annotated; simpl.
    unfold getitems.
    destruct (filter _ _) as [|l ls] eqn:E.
    + exfalso.
      assert (l0 ∈ filter (λ l, l ∉ columns (annotated data))
                ["Customer_ID"; "Product_ID"; "Purchase_Amount_Scaled"])
        as Hin; [|rewrite E in Hin; by apply elem_of_nil in Hin].
      apply list_elem_of_filter.
      unfold trainer_labels in Hl0.
      rewrite !elem_of_cons, elem_of_nil in Hl0.
      assert (l0 ≠ "Purchase_Amount") as Hne by (by intros ->).
      assert (l0 ≠ "Purchase_Amount_Scaled") as Hne'
        by (intros ->; destruct Hl0 as [|[|[|]]]; done).
      split.
      * unfold annotated, setitem_scaled; simpl. case_decide; [done|].
        rewrite elem_of_app, elem_of_cons, elem_of_nil. tauto.
      * rewrite !elem_of_cons. tauto.
    + simpl. exists (l :: ls). split; [done|]. split; [done|].
      intros l' Hl'. rewrite <- E in Hl'.
      apply list_elem_of_filter in Hl' as [Hnot Hl'].
      rewrite !elem_of_cons, elem_of_nil in Hl'.
      destruct Hl' as [->|[->|[->|[]]]].
      * split; [unfold trainer_labels; rewrite !elem_of_cons; auto|].
        intros ?. by apply Hnot, columns_annotated.
      * split; [unfold trainer_labels; rewrite !elem_of_cons; auto|].
        intros ?. by apply Hnot, columns_annotated.
      * exfalso. apply Hnot, scaled_in_annotated.
  - rewrite (getitem_missing data "Purchase_Amount") by done; simpl.
    exists ["Purchase_Amount"]. split; [done|]. split; [done|].
    intros l ->%list_elem_of_singleton.
    split; [unfold trainer_labels; rewrite !elem_of_cons; auto | done].
Qed.
End trainer_facts.

Lemma unpickle_Some {A} (f : option (File A)) a :
  unpickle f = Some a ↔ f = Some (Pickled a).
Proof.
  destruct f as [[a'|]|]; simpl; split; intros H; by simplify_eq.
Qed.

Ltac run :=
  unfold mbind, M_bind, bindM, mret, M_ret, retM, lift, call,
    exists_model_pkl, exists_best_params_pkl, load_model_pkl,
    load_best_params_pkl, dump_model_pkl, dump_best_params_pkl, emit;
  cbn -[train].

(** The branches of a training run, one external call after the other. *)
Ltac walk :=
  unfold train; run;
  destruct (GridSearchCV_fit _ _ _ _ _) as [[found|?] s1] eqn:Hsearch;
    cbn; [|try done];
  [destruct (dict_getitem found "rmse") as [best|?] eqn:Hbest;
    cbn; [|try done];
   [destruct (train_test_split _ _ _) as [[[tr te]|?] s2] eqn:Hsplit;
     cbn; [|try done];
    [destruct (SVDpp_fit _ _ _) as [[fitted|?] s3] eqn:Hfit;
      cbn; [|try done];
     [destruct (write_outcome "model.pkl") eqn:Hw1; cbn; try done;
      [destruct (write_outcome "best_params.pkl") eqn:Hw2; cbn; try done
      |..] |..] |..] |..] |..].

Section trainer_claims.
Context {ext : Externals} {num : Numerics}.

(** Training starts with the grid search, whatever comes of it. *)
Lemma train_trace ds w r w' :
  train ds w = (r, w') → ∃ rest, trace w' = trace w ++ EvGridSearch :: rest.
Proof.
  walk; intros [= <- <-]; simpl; rewrite <- ?app_assoc; by eexists.
Qed.

(** A model that training returns was fitted on a split of the dataset. *)
Lemma train_Ok ds w m w' :
  train ds w = (Ok m, w') →
  ∃ params tr te s1 s2 s3,
    train_test_split ds (2 # 10) s1 = (Ok (tr, te), s2) ∧
    SVDpp_fit params tr s2 = (Ok m, s3).
Proof.
  walk. intros [= <- <-]. by exists best, tr, te, s1, s2, s3.
Qed.

(** C8. On a frame that lacks the customer id, the product id or the
    amount column the trainer raises [KeyError] for missing required
    labels, and the world is as before: nothing was loaded, searched,
    fitted or written. *)
Theorem C8_missing_column_fails_before_training data w :
  (∃ l, l ∈ trainer_labels ∧ l ∉ columns data) →
  ∃ labels,
    train_and_save_model data w = (Err (KeyError labels), w) ∧
    labels ≠ [] ∧
    ∀ l, l ∈ labels → l ∈ trainer_labels ∧ l ∉ columns data.
Proof.
  intros (labels & Hprep & Hne & Hall)%prepare_missing.
  exists labels. split; [|done].
  unfold train_and_save_model. run. by rewrite Hprep.
Qed.

(** With both artifacts on disk and the three columns in the frame, the
    stored model comes back and the two loads are the only calls. *)
Lemma cache_hit data w m p :
  Forall (λ l, l ∈ columns data) trainer_labels →
  model_pkl (disk w) = Some m →
  best_params_pkl (disk w) = Some p →
  train_and_save_model data w
  = (Ok (m, annotated data),
     mkWorld (disk w) (rng w)
       (trace w ++ [EvLoad "model.pkl"; EvLoad "best_params.pkl"])).
Proof.
  intros Hcols Hm%unpickle_Some Hp%unpickle_Some.
  unfold train_and_save_model. run.
  rewrite (prepare_present data Hcols); simpl.
  rewrite Hm; simpl. rewrite Hp; simpl.
  rewrite Hm; simpl. rewrite Hp; simpl.
  by rewrite <- app_assoc.
Qed.

(** Without both artifacts, and with the three columns, the trainer is the
    training routine. *)
Lemma cache_miss data w :
  Forall (λ l, l ∈ columns data) trainer_labels →
  ¬ cached w →
  train_and_save_model data w
  = (let '(r, w') := train (dataset_of data) w in
     (match r with
      | Ok m => Ok (m, annotated data)
      | Err e => Err e
      end, w')).
Proof.
  intros Hcols Hmiss. unfold train_and_save_model. run.
  rewrite (prepare_present data Hcols); cbn -[train].
  unfold cached in Hmiss.
  destruct (model_file (disk w)) as [m|] eqn:Hm; cbn -[train];
    destruct (best_params_file (disk w)) as [p|] eqn:Hp; cbn -[train];
    try (exfalso; apply Hmiss; split; by eexists);
    by destruct (train (dataset_of data) w) as [[m'|e] w'].
Qed.

(** C3, amended. On a frame that has the three required columns: when
    both artifacts are on disk the stored model is returned with the
    annotated frame, the only calls made are the two loads, and disk and
    generator are as before, so a second call, on any such frame, returns
    the same model; when an artifact is missing the grid search is
    called. *)
Theorem C3_cached_model_returned data w :
  Forall (λ l, l ∈ columns data) trainer_labels →
  (∀ m p,
     model_pkl (disk w) = Some m → best_params_pkl (disk w) = Some p →
     let w' := mkWorld (disk w) (rng w)
                 (trace w ++ [EvLoad "model.pkl"; EvLoad "best_params.pkl"])
     in
     train_and_save_model data w = (Ok (m, annotated data), w') ∧
     ∀ data2, Forall (λ l, l ∈ columns data2) trainer_labels →
       ∃ w'', train_and_save_model data2 w' = (Ok (m, annotated data2), w'')
              ∧ disk w'' = disk w ∧ rng w'' = rng w) ∧
  (¬ cached w →
   ∃ r w' rest, train_and_save_model data w = (r, w') ∧
                trace w' = trace w ++ EvGridSearch :: rest).
Proof.
  intros Hcols. split.
  - intros m p Hm Hp w'. split; [by apply (cache_hit data w m p)|].
    intros data2 Hcols2. eexists.
    split; [by apply (cache_hit data2 w' m p)|]. done.
  - intros Hmiss. rewrite (cache_miss data w Hcols Hmiss).
    destruct (train (dataset_of data) w) as [r w'] eqn:Htrain.
    destruct (train_trace _ _ _ _ Htrain) as [rest Hrest].
    by eexists _, w', rest.
Qed.

(** What a successful run of the trainer went through. *)
Lemma prepare_Ok data d ds :
  prepare data = Ok (d, ds) → d = annotated data ∧ ds = dataset_of data.
Proof.
  intros Hprep.
  destruct (decide (Forall (λ l, l ∈ columns data) trainer_labels))
    as [Hcols|Hmiss].
  - rewrite (prepare_present data Hcols) in Hprep. by injection Hprep.
  - apply not_Forall_Exists in Hmiss; [|apply _].
    apply Exists_exists in Hmiss as (l & Hl & Hnot).
    destruct (prepare_missing data) as (labels & Herr & _); [by exists l|].
    by rewrite Herr in Hprep.
Qed.

Lemma train_and_save_model_Ok data w m d w' :
  train_and_save_model data w = (Ok (m, d), w') →
  d = annotated data ∧
  (cached w ∧ model_pkl (disk w) = Some m
   ∨ ¬ cached w ∧ train (dataset_of data) w = (Ok m, w')).
Proof.
  unfold train_and_save_model. run.
  destruct (prepare data) as [[d0 ds]|e] eqn:Hprep; cbn -[train]; [|done].
  apply prepare_Ok in Hprep as [-> ->].
  unfold cached, model_pkl.
  destruct (model_file (disk w)) as [m0|] eqn:Hm; cbn -[train];
    destruct (best_params_file (disk w)) as [p0|] eqn:Hp; cbn -[train];
    repeat (first [rewrite Hm | rewrite Hp]; cbn -[train]).
  - destruct m0 as [m0|]; cbn -[train]; [|done].
    rewrite Hp. destruct p0 as [p0|]; cbn -[train]; [|done].
    intros ?; simplify_eq. split; [done|]. left. split; [|done].
    split; by eexists.
  - destruct (train (dataset_of data) w) as [[m1|e] w1]; [|done].
    intros ?; simplify_eq. split; [done|]. right. split; [|done].
    by intros [_ [? [=]]].
  - destruct (train (dataset_of data) w) as [[m1|e] w1]; [|done].
    intros ?; simplify_eq. split; [done|]. right. split; [|done].
    by intros [[? [=]] _].
  - destruct (train (dataset_of data) w) as [[m1|e] w1]; [|done].
    intros ?; simplify_eq. split; [done|]. right. split; [|done].
    by intros [[? [=]] _].
Qed.

(** A model that training returns is on disk afterwards, with its
    parameters. *)
Lemma train_persists ds w m w' :
  train ds w = (Ok m, w') →
  model_pkl (disk w') = Some m ∧ is_Some (best_params_pkl (disk w')).
Proof.
  walk. intros [= <- <-]. simpl. split; [done | by eexists].
Qed.

(** The staleness the cache brings: once a model has been fitted, a later
    call returns that same model for any corpus with the three columns. *)
Lemma fitted_model_is_reused data w m d w' data2 :
  ¬ cached w →
  train_and_save_model data w = (Ok (m, d), w') →
  Forall (λ l, l ∈ columns data2) trainer_labels →
  ∃ w'', train_and_save_model data2 w' = (Ok (m, annotated data2), w'').
Proof.
  intros Hmiss Hrun Hcols.
  apply train_and_save_model_Ok in Hrun as [_ [[Hc _]|[_ Htrain]]]; [done|].
  apply train_persists in Htrain as [Hm [p Hp]].
  eexists. by apply (cache_hit data2 w' m p).
Qed.

(** C9. Given that Surprise clips as documented, a model that the
    trainer has just fitted answers every query within the smallest and
    the largest scaled amount of the corpus it was fitted on, and so does
    every estimated rating in a list of recommendations made with it. *)
Theorem C9_estimates_within_training_scale data w m data' w' lo hi :
  clips_to_scale ext →
  ¬ cached w →
  train_and_save_model data w = (Ok (m, data'), w') →
  Series_min (scaled_amounts data) = Some lo →
  Series_max (scaled_amounts data) = Some hi →
  (∀ u i, (lo <= m u i <= hi)%Q) ∧
  ∀ user_id n recs,
    get_recommendations_for_user user_id n data' m = Ok recs →
    ∀ r, r ∈ recs → (lo <= rec_Estimated_Rating r <= hi)%Q.
Proof.
  intros Hclip Hmiss Hrun Hlo Hhi.
  assert (∀ u i, (lo <= m u i <= hi)%Q) as Hbound.
  { apply train_and_save_model_Ok in Hrun as [_ [[Hc _]|[_ Htrain]]];
      [done|].
    apply train_Ok in Htrain
      as (params & tr & te & s1 & s2 & s3 & Hsplit & Hfit).
    apply (Hclip _ _ _ _ _ _ _ _ _ lo hi Hsplit Hfit).
    - simpl. by rewrite Hlo, Hhi.
    - by eapply Series_min_le_max. }
  split; [done|].
  intros user_id n recs (items & _ & Hpairs)%get_recommendations_pairs r Hr.
  assert (pair_of r ∈ top_predictions user_id n m items) as Hp.
  { rewrite <- Hpairs. by apply list_elem_of_fmap_2. }
  apply top_predictions_elem_of in Hp as [_ He]. simpl in He.
  rewrite He. apply Hbound.
Qed.

(** C6, amended. For every purchase row whose amount is above -1 the
    triple fed to the fitting library carries the customer, the product and
    [log1p] of the amount, which is also what the scaled column of the
    frame holds; and when [log1p] is within [eps] of the natural logarithm
    of one plus the amount, [exp] of the scaled amount less one recovers
    the amount within the tolerance [(1 + amount) * (exp eps - 1)].  There
    is one triple per row. *)
Theorem C6_round_trip_above_minus_one data d ds eps i row :
  prepare data = Ok (d, ds) →
  rows data !! i = Some row →
  (-1 < Q2R (Purchase_Amount row))%R →
  log1p_accurate ext eps (Purchase_Amount row) →
  length (raw_ratings ds) = length (rows data) ∧
  ∃ scaled,
    raw_ratings ds !! i = Some (Customer_ID row, Product_ID row, scaled) ∧
    Purchase_Amount_Scaled <$> rows d !! i = Some scaled ∧
    scaled = log1p (Purchase_Amount row) ∧
    (Rabs (exp (Q2R scaled) - 1 - Q2R (Purchase_Amount row))
     <= (1 + Q2R (Purchase_Amount row)) * (exp eps - 1))%R.
Proof.
  intros [-> ->]%prepare_Ok Hrow Hamount Hacc.
  split; [unfold dataset_of, rating_triples; simpl; by rewrite length_fmap|].
  exists (log1p (Purchase_Amount row)).
  split.
  { unfold dataset_of, rating_triples; simpl.
    by rewrite list_lookup_fmap, Hrow. }
  split; [by rewrite rows_annotated, list_lookup_fmap, Hrow|].
  split; [done|]. by apply round_trip_bound.
Qed.
End trainer_claims.

(** ** The statements at sample inputs *)

Lemma sample_columns_trainer :
  Forall (λ l, l ∈ columns sample_data) trainer_labels.
Proof. repeat constructor; compute_done. Qed.

Lemma C1_witness :
  get_recommendations_for_user (num := exact_sums) 7 5 sample_data
    sample_model = Ok sample_recs ∧
  ∃ items, items_to_predict 7 sample_data = Ok items ∧
    ∀ r, r ∈ sample_recs →
      rec_Product_ID r ∈ items ∧ ¬ purchased 7 sample_data (rec_Product_ID r).
Proof.
  split; [vm_compute; reflexivity|].
  apply (proj2 (C1_scored_products_exclude_purchases (num := exact_sums)
      7 5 sample_data
                  sample_model)).
  vm_compute; reflexivity.
Defined.

Lemma C10_witness :
  get_recommendations_for_user (num := exact_sums) 7 5 sample_data
    sample_model = Ok sample_recs ∧
  NoDup (rec_Product_ID <$> sample_recs).
Proof.
  split; [vm_compute; reflexivity|].
  apply (C10_products_distinct (num := exact_sums)
      7 5 sample_data sample_model).
  vm_compute; reflexivity.
Defined.

Lemma C4_witness :
  get_recommendations_for_user (num := exact_sums) 7 5 sample_data
    sample_model = Ok sample_recs ∧
  StronglySorted
    (λ a b, (rec_Estimated_Rating b <= rec_Estimated_Rating a)%Q)
    sample_recs.
Proof.
  split; [vm_compute; reflexivity|].
  apply (C4_sorted_and_stable (num := exact_sums) 7 5 sample_data sample_model).
  vm_compute; reflexivity.
Defined.

Lemma C5_witness :
  0 ≤ 5 ∧
  get_recommendations_for_user (num := exact_sums) 7 5 sample_data
    sample_model = Ok sample_recs ∧
  ∃ items, items_to_predict 7 sample_data = Ok items ∧
    NoDup items ∧
    (∀ p, p ∈ items ↔
          p ∈ Product_ID <$> rows sample_data ∧ ¬ purchased 7 sample_data p) ∧
    Z.of_nat (length sample_recs) = Z.min 5 (Z.of_nat (length items)).
Proof.
  split; [lia|]. split; [vm_compute; reflexivity|].
  apply (C5_length_for_nonnegative_count (num := exact_sums)
      7 5 sample_data sample_model);
    [lia | vm_compute; reflexivity].
Defined.

(** C5 as stated fails for a negative count: with [n = -1] and two
    candidates the list has one entry, and [min (-1) 2] is [-1]. *)
Lemma C5_counterexample :
  ∃ recs items,
    get_recommendations_for_user (num := exact_sums)
        7 (-1) sample_data sample_model = Ok recs ∧
    items_to_predict 7 sample_data = Ok items ∧
    length recs = 1%nat ∧ length items = 2%nat ∧
    Z.of_nat (length recs) ≠ Z.min (-1) (Z.of_nat (length items)).
Proof.
  eexists _, _. split; [vm_compute; reflexivity|].
  split; [vm_compute; reflexivity|]. by vm_compute.
Qed.

Lemma C7_witness :
  get_recommendations_for_user (num := exact_sums) 7 5 sample_data
    sample_model = Ok sample_recs ∧
  ∀ r, r ∈ sample_recs →
    last (unique (pairs_of sample_data (rec_Product_ID r)))
    = Some (rec_Category r, rec_Subcategory r) ∧
    ((∀ x y, x ∈ pairs_of sample_data (rec_Product_ID r) →
             y ∈ pairs_of sample_data (rec_Product_ID r) → x = y) →
     head (pairs_of sample_data (rec_Product_ID r))
     = Some (rec_Category r, rec_Subcategory r)).
Proof.
  split; [vm_compute; reflexivity|].
  apply (C7_details_last_distinct_pair (num := exact_sums)
      7 5 sample_data sample_model).
  vm_compute; reflexivity.
Defined.

(** C7 as stated fails when a product is filed under two pairs: product 10
    is recommended to customer 2 under the pair of its second row. *)
Lemma C7_counterexample :
  ∃ r,
    get_recommendations_for_user (num := exact_sums)
        2 5 ambiguous_data sample_model = Ok [r] ∧
    rec_Product_ID r = 10 ∧
    head (pairs_of ambiguous_data 10) = Some ("Books", "Fiction") ∧
    (rec_Category r, rec_Subcategory r) = ("Beauty", "Makeup") ∧
    head (pairs_of ambiguous_data (rec_Product_ID r))
    ≠ Some (rec_Category r, rec_Subcategory r).
Proof.
  eexists. split; [vm_compute; reflexivity|]. by vm_compute.
Qed.

Lemma C2_witness :
  get_recommendations_for_user (num := exact_sums) 7 5 sample_data
    sample_model = Ok sample_recs ∧
  ∀ r, r ∈ sample_recs →
    ∃ c1 c2,
      rec_Reason r
      = "Recommended because " +:+
        join "; "
          (c1 ++ c2 ++
           [popularity_clause
              (revenue (num := exact_sums)
                  sample_data (rec_Category r) (rec_Subcategory r));
            rating_clause (rec_Estimated_Rating r)]) +:+ "." ∧
      (bought_in_category 7 sample_data (rec_Category r) ∧
         c1 = [interest_clause (rec_Category r)]
       ∨ ¬ bought_in_category 7 sample_data (rec_Category r) ∧ c1 = []) ∧
      (bought_in_subcategory 7 sample_data (rec_Category r)
         (rec_Subcategory r)
         ∧ c2 = [subcategory_clause (rec_Subcategory r)]
       ∨ ¬ bought_in_subcategory 7 sample_data
             (rec_Category r) (rec_Subcategory r) ∧ c2 = []).
Proof.
  split; [vm_compute; reflexivity|].
  apply (C2_reason_clauses (num := exact_sums) 7 5 sample_data sample_model).
  vm_compute; reflexivity.
Defined.

Lemma C8_witness :
  (∃ l, l ∈ trainer_labels ∧ l ∉ columns no_amount_data) ∧
  ∃ labels,
    train_and_save_model (ext := sample_externals) no_amount_data cached_world
    = (Err (KeyError labels), cached_world) ∧
    labels ≠ [] ∧
    ∀ l, l ∈ labels → l ∈ trainer_labels ∧ l ∉ columns no_amount_data.
Proof.
  assert (∃ l, l ∈ trainer_labels ∧ l ∉ columns no_amount_data) as Hmiss.
  { exists "Purchase_Amount". split; compute_done. }
  split; [exact Hmiss|].
  exact (C8_missing_column_fails_before_training (ext := sample_externals)
           no_amount_data cached_world Hmiss).
Defined.

(** C3 as stated fails on a frame without the amount column: both
    artifacts are on disk and the call raises [KeyError] instead of
    returning the stored model. *)
Lemma C3_counterexample :
  cached cached_world ∧
  train_and_save_model (ext := sample_externals) no_amount_data cached_world
  = (Err (KeyError ["Purchase_Amount"]), cached_world).
Proof. split; [split; by eexists | reflexivity]. Qed.

Lemma C3_witness :
  Forall (λ l, l ∈ columns sample_data) trainer_labels ∧
  train_and_save_model (ext := sample_externals) sample_data cached_world
  = (Ok (sample_model, annotated (ext := sample_externals) sample_data),
     mkWorld (disk cached_world) (rng cached_world)
       (trace cached_world ++ [EvLoad "model.pkl"; EvLoad "best_params.pkl"])).
Proof.
  split; [exact sample_columns_trainer|].
  apply (C3_cached_model_returned (ext := sample_externals) sample_data
           cached_world sample_columns_trainer) with sample_params;
    reflexivity.
Defined.

Lemma sample_externals_clip : clips_to_scale sample_externals.
Proof.
  intros ds size s1 s2 s3 tr te params m lo hi Hsplit Hfit Hscale Hle u i.
  simpl in Hsplit, Hfit. injection Hsplit as <- _ _. injection Hfit as <- _.
  rewrite Hscale. simpl. split.
  - apply Q.le_max_l.
  - apply Q.max_lub; [done | apply Q.le_min_l].
Qed.

Lemma C9_witness :
  ∃ m data' w',
    train_and_save_model (ext := sample_externals) sample_data empty_world
    = (Ok (m, data'), w') ∧
    ∀ u i, (1250 # 100 <= m u i <= 120050 # 100)%Q.
Proof.
  eexists _, _, _. split; [cbv; reflexivity|].
  eapply (C9_estimates_within_training_scale (num := exact_sums)
      (ext := sample_externals)
            sample_data empty_world).
  - exact sample_externals_clip.
  - by intros [[? [=]] _].
  - vm_compute; reflexivity.
  - reflexivity.
  - reflexivity.
Defined.

(** C2 as stated fails when two categories share a subcategory label:
    customer 1 has bought Clothing accessories and an Electronics laptop,
    so has a prior purchase in a subcategory named as that of the
    recommended Electronics accessory, and the reason has the interest
    clause and no subcategory clause. *)
Lemma C2_counterexample :
  ∃ r,
    get_recommendations_for_user (num := exact_sums) 1 5 accessories_data
      sample_model = Ok [r] ∧
    (rec_Category r, rec_Subcategory r) = ("Electronics", "Accessories") ∧
    (∃ row, row ∈ rows accessories_data ∧ Customer_ID row = 1 ∧
            Subcategory row = rec_Subcategory r) ∧
    rec_Reason r
    = "Recommended because the customer has shown a strong interest in Electronics items previously; this product is highly popular among other customers with total revenue of $15.00; the predicted rating for this product is 51.00, indicating high satisfaction potential.".
Proof.
  eexists. split; [vm_compute; reflexivity|]. split; [reflexivity|].
  split; [|reflexivity].
  eexists. split; [left|]. by split.
Qed.

Lemma C6_witness :
  rows free_data !! 0%nat = Some (mkPurchase 4 9 "Books" "Fiction" 0 0) ∧
  (-1 < Q2R 0)%R ∧
  log1p_accurate sample_externals 0 0 ∧
  ∃ d ds,
    prepare (ext := sample_externals) free_data = Ok (d, ds) ∧
    length (raw_ratings ds) = length (rows free_data) ∧
    ∃ scaled,
      raw_ratings ds !! 0%nat = Some (4, 9, scaled) ∧
      (Rabs (exp (Q2R scaled) - 1 - Q2R 0) <= (1 + Q2R 0) * (exp 0 - 1))%R.
Proof.
  assert (prepare (ext := sample_externals) free_data
          = Ok (annotated (ext := sample_externals) free_data,
                dataset_of (ext := sample_externals) free_data)) as Hprep
    by (vm_compute; reflexivity).
  assert (-1 < Q2R 0)%R as Hamount by (unfold Q2R; simpl; lra).
  assert (log1p_accurate sample_externals 0 0) as Hacc.
  { unfold log1p_accurate, Q2R; simpl.
    replace (1 + 0 * / 1)%R with 1%R by lra.
    rewrite ln_1. replace (0 * / 1 - 0)%R with 0%R by lra.
    rewrite Rabs_R0. lra. }
  split; [reflexivity|]. split; [exact Hamount|]. split; [exact Hacc|].
  destruct (C6_round_trip_above_minus_one (ext := sample_externals)
              free_data _ _ 0%R 0%nat (mkPurchase 4 9 "Books" "Fiction" 0 0)
              Hprep eq_refl Hamount Hacc)
    as (Hlen & scaled & Hraw & _ & _ & Hbound).
  eexists _, _. split; [exact Hprep|].
  split; [exact Hlen|]. exists scaled. split; [exact Hraw | exact Hbound].
Defined.

(** C6 as stated fails on a row whose amount is not above -1: the refund
    of 2 is fed to the library, and whatever number [log1p] answers for
    it, [exp] of that number less one stays above -1, more than one away
    from the amount. *)
Lemma C6_counterexample :
  ∃ d ds,
    prepare (ext := sample_externals) refund_data = Ok (d, ds) ∧
    Purchase_Amount <$> rows refund_data = [(-2 # 1)%Q] ∧
    length (raw_ratings ds) = 1%nat ∧
    ∀ scaled : Q, (exp (Q2R scaled) - 1 - Q2R (-2 # 1) > 1)%R.
Proof.
  eexists _, _. split; [vm_compute; reflexivity|]. split; [reflexivity|].
  split; [reflexivity|].
  intros scaled. pose proof (exp_pos (Q2R scaled)).
  unfold Q2R at 2; simpl. lra.
Qed.

(** ** Runs on the sample corpus *)

(** Customer 7 bought a laptop: the headphones are recommended with the
    interest clause and without the subcategory clause, the novel with
    neither. *)
Example reasons_for_customer_7 :
  rec_Reason <$> sample_recs
  = [ "Recommended because this product is highly popular among other customers with total revenue of $12.50; the predicted rating for this product is 1.50, indicating high satisfaction potential.";
      "Recommended because the customer has shown a strong interest in Electronics items previously; this product is highly popular among other customers with total revenue of $120.00; the predicted rating for this product is 1.00, indicating high satisfaction potential." ].
Proof. reflexivity. Qed.

Example formatting :
  format_comma_2f (1234567 # 1) = "1,234,567.00" ∧
  format_comma_2f (99999 # 100) = "999.99" ∧
  format_2f (-1 # 8) = "-0.12" ∧
  format_2f (3 # 8) = "0.38" ∧
  format_2f (-1 # 1000) = "-0.00".
Proof. repeat split; reflexivity. Qed.

(** A first run fits and writes both files; the run after it loads. *)
Example first_run_then_cached :
  ∃ m d w,
    train_and_save_model (ext := sample_externals) sample_data empty_world
    = (Ok (m, d), w) ∧
    trace w = [EvGridSearch; EvSplit; EvFit;
               EvDump "model.pkl"; EvDump "best_params.pkl"] ∧
    cached w ∧
    ∃ w2, train_and_save_model (ext := sample_externals) sample_data w
          = (Ok (m, d), w2) ∧
          trace w2 = trace w ++ [EvLoad "model.pkl"; EvLoad "best_params.pkl"].
Proof.
  eexists _, _, _. split; [cbv; reflexivity|].
  split; [reflexivity|]. split; [split; by eexists|].
  eexists. split; [cbv; reflexivity | reflexivity].
Qed.

(** The model is written before the parameters: when the second dump
    raises, the call fails having put the new model into [model.pkl] and
    left [best_params.pkl] without a pickle; both paths exist then, so the
    next call loads instead of training and fails on the second file. *)
Example half_written_artifacts :
  ∃ e w,
    half_written_run = (Err e, w) ∧
    trace w = training_events ∧
    is_Some (model_pkl (disk w)) ∧
    best_params_file (disk w) = Some Garbage ∧
    cached w ∧
    train_and_save_model (ext := full_disk_externals) sample_data w
    = (Err (UnpicklingError "best_params.pkl"),
       mkWorld (disk w) (rng w) (trace w ++ loading_events)).
Proof.
  eexists _, _. split; [reflexivity|]. split; [reflexivity|].
  split; [by eexists|]. split; [reflexivity|].
  split; [split; by eexists|]. reflexivity.
Qed.

(** * Further properties *)

(** ** What a recommendation list is made of *)

Section recommender_more.
Context {num : Numerics}.

(** A recommendation comes from a kept prediction and from the entry of
    its product in the dict of details. *)
Lemma recommendation_origin user_id n data model recs r :
  get_recommendations_for_user user_id n data model = Ok recs →
  r ∈ recs →
  ∃ items d,
    items_to_predict user_id data = Ok items ∧
    product_details_dict data = Ok d ∧
    pair_of r ∈ top_predictions user_id n model items ∧
    d !! rec_Product_ID r = Some (rec_Category r, rec_Subcategory r).
Proof.
  intros (items & d & Hitems & Hd & Hall)%get_recommendations_Ok Hr.
  exists items, d. split; [done|]. split; [done|].
  apply list_elem_of_lookup in Hr as [i Hi].
  destruct (Forall2_lookup_r _ _ _ _ _ Hall Hi) as (p & Hp & det & Hdet & Hadd).
  apply detail_of_Ok in Hdet as (Hdp & Hpid & Hest).
  apply add_reason_Ok in Hadd as (Hpid' & Hest' & Hc & Hs & _).
  split.
  - unfold pair_of. rewrite Hpid', Hest', Hpid, Hest.
    destruct p. by eapply list_elem_of_lookup_2.
  - by rewrite Hpid', Hpid, Hc, Hs.
Qed.

(** X1. Every field of a recommendation is grounded in the inputs: the
    estimated rating is the model's answer for this customer and product,
    and the category and subcategory are those of some corpus row of the
    product. *)
Theorem recommendation_fields_grounded user_id n data model recs :
  get_recommendations_for_user user_id n data model = Ok recs →
  ∀ r, r ∈ recs →
    rec_Estimated_Rating r = model user_id (rec_Product_ID r) ∧
    ∃ row, row ∈ rows data ∧
      Product_ID row = rec_Product_ID r ∧
      Category row = rec_Category r ∧
      Subcategory row = rec_Subcategory r.
Proof.
  intros Hrun r Hr.
  destruct (recommendation_origin _ _ _ _ _ _ Hrun Hr)
    as (items & d & _ & Hd & Hp & Hlookup).
  split.
  - by apply top_predictions_elem_of in Hp as [_ He].
  - rewrite (product_details_dict_last _ _ _ Hd) in Hlookup.
    apply last_Some_elem_of in Hlookup. rewrite elem_of_unique in Hlookup.
    unfold pairs_of in Hlookup.
    apply list_elem_of_fmap in Hlookup as (row & [= Hc Hs] & Hrow).
    apply list_elem_of_filter in Hrow as [Hpid Hrow].
    by exists row.
Qed.

(** X2. The list is the top of the ranking: a product that was scored and
    is not recommended has an estimate no larger than that of any
    recommendation, whatever the count. *)
Theorem recommended_dominate_the_rest user_id n data model recs items :
  get_recommendations_for_user user_id n data model = Ok recs →
  items_to_predict user_id data = Ok items →
  ∀ r p, r ∈ recs → p ∈ items → p ∉ rec_Product_ID <$> recs →
    (model user_id p <= rec_Estimated_Rating r)%Q.
Proof.
  intros (items' & Hitems' & Hpairs)%get_recommendations_pairs Hitems.
  rewrite Hitems in Hitems'. injection Hitems' as <-.
  intros r p Hr Hp Hnot.
  destruct (top_predictions_prefix user_id n model items) as [rest Hsplit].
  pose proof (sorted_desc_sorted (score user_id model items)) as Hsorted.
  rewrite Hsplit in Hsorted.
  assert ((p, model user_id p) ∈ top_predictions user_id n model items ++ rest)
    as Hin.
  { rewrite <- Hsplit, sorted_desc_perm. by apply elem_of_score. }
  apply elem_of_app in Hin as [Hin|Hin].
  - exfalso. apply Hnot.
    replace (rec_Product_ID <$> recs) with (fst <$> (pair_of <$> recs))
      by (rewrite <- list_fmap_compose; by apply list_fmap_ext).
    rewrite Hpairs. by apply (list_elem_of_fmap_2 fst) in Hin.
  - assert (pair_of r ∈ top_predictions user_id n model items) as Hr'.
    { rewrite <- Hpairs. by apply list_elem_of_fmap_2. }
    apply (StronglySorted_app_1_elem_of _ _ _ _ _ Hsorted Hr' Hin).
Qed.

(** X3. A count that reaches the number of candidates returns them all:
    every product the customer has no row for, each exactly once. *)
Theorem large_count_returns_all_candidates user_id n data model recs items :
  Z.of_nat (length items) ≤ n →
  get_recommendations_for_user user_id n data model = Ok recs →
  items_to_predict user_id data = Ok items →
  rec_Product_ID <$> recs ≡ₚ items.
Proof.
  intros Hn (items' & Hitems' & Hpairs)%get_recommendations_pairs Hitems.
  rewrite Hitems in Hitems'. injection Hitems' as <-.
  replace (rec_Product_ID <$> recs) with (fst <$> (pair_of <$> recs))
    by (rewrite <- list_fmap_compose; by apply list_fmap_ext).
  rewrite Hpairs. unfold top_predictions, slice_to.
  destruct (Z.leb_spec 0 n); [|lia].
  rewrite take_ge.
  - by rewrite sorted_desc_perm, fst_score.
  - rewrite (Permutation_length (sorted_desc_perm _)).
    unfold score. rewrite length_fmap. lia.
Qed.

Lemma mapR_take {A B} (f : A → Result B) l l' k :
  mapR f l = Ok l' → mapR f (take k l) = Ok (take k l').
Proof.
  revert l' k. induction l as [|x l IH]; intros l' k H; simpl in H.
  - injection H as <-. by destruct k.
  - bind_inv H. injection H as <-.
    destruct k as [|k]; [done|]. simpl.
    rewrite E; simpl. by rewrite (IH _ k E0).
Qed.

(** X4. Asking for fewer recommendations gives the beginning of the longer
    list: for [0 <= n <= m] the answer for [n] is the first [n] entries of
    the answer for [m]. *)
Theorem smaller_count_is_prefix user_id n m data model recs :
  0 ≤ n ≤ m →
  get_recommendations_for_user user_id m data model = Ok recs →
  get_recommendations_for_user user_id n data model
  = Ok (take (Z.to_nat n) recs).
Proof.
  intros Hnm. unfold get_recommendations_for_user. intros H. bind_inv H.
  rewrite E, E0; simpl.
  assert (top_predictions user_id n model a
          = take (Z.to_nat n) (top_predictions user_id m model a)) as ->.
  { unfold top_predictions, slice_to.
    destruct (Z.leb_spec 0 n); [|lia]. destruct (Z.leb_spec 0 m); [|lia].
    rewrite take_take. f_equal. lia. }
  rewrite (mapR_take _ _ _ _ E1); simpl.
  by apply mapR_take.
Qed.

(** ** Missing columns in the recommender *)

Lemma items_to_predict_present user_id data :
  "Product_ID" ∈ columns data → "Customer_ID" ∈ columns data →
  ∃ items, items_to_predict user_id data = Ok items.
Proof.
  intros Hp Hc. unfold items_to_predict.
  rewrite getitem_present by done; simpl.
  rewrite select_present by done; simpl.
  rewrite getitem_present by done; simpl. by eexists.
Qed.

(** X5. On a frame that lacks the customer id, product id, category or
    subcategory column the call raises [KeyError] for labels that are
    missing, whatever the customer, the count and the model. *)
Theorem missing_lookup_column_raises user_id n data model :
  (∃ l, l ∈ lookup_labels ∧ l ∉ columns data) →
  ∃ labels,
    get_recommendations_for_user user_id n data model = Err (KeyError labels) ∧
    labels ≠ [] ∧
    ∀ l, l ∈ labels → l ∈ lookup_labels ∧ l ∉ columns data.
Proof.
  intros (l0 & Hl0 & Hmiss). unfold get_recommendations_for_user.
  destruct (decide ("Product_ID" ∈ columns data)) as [Hp|Hp].
  2:{ unfold items_to_predict.
      rewrite (getitem_missing data "Product_ID") by done; simpl.
      exists ["Product_ID"]. split; [done|]. split; [done|].
      intros l ->%list_elem_of_singleton.
      split; [unfold lookup_labels; rewrite !elem_of_cons; auto | done]. }
  destruct (decide ("Customer_ID" ∈ columns data)) as [Hc|Hc].
  2:{ unfold items_to_predict.
      rewrite getitem_present by done; simpl.
      unfold select. rewrite decide_False by done; simpl.
      exists ["Customer_ID"]. split; [done|]. split; [done|].
      intros l ->%list_elem_of_singleton.
      split; [unfold lookup_labels; rewrite !elem_of_cons; auto | done]. }
  destruct (items_to_predict_present user_id data Hp Hc) as [items ->]; simpl.
  unfold product_details_dict, getitems.
  destruct (filter _ _) as [|l ls] eqn:E.
  - exfalso.
    assert (l0 ∈ filter (λ l, l ∉ columns data)
              ["Product_ID"; "Category"; "Subcategory"]) as Hin;
      [|rewrite E in Hin; by apply elem_of_nil in Hin].
    apply list_elem_of_filter. split; [done|].
    unfold lookup_labels in Hl0. rewrite !elem_of_cons, elem_of_nil in Hl0.
    rewrite !elem_of_cons.
    destruct Hl0 as [->|[->|[->|[->|[]]]]]; auto. by destruct Hmiss.
  - simpl. exists (l :: ls). split; [done|]. split; [done|].
    intros l' Hl'. rewrite <- E in Hl'.
    apply list_elem_of_filter in Hl' as [Hnot Hl'].
    split; [|done]. unfold lookup_labels.
    rewrite !elem_of_cons, elem_of_nil in Hl'. rewrite !elem_of_cons. tauto.
Qed.

Lemma add_reason_without_amount user_id data det :
  Forall (λ l, l ∈ columns data) lookup_labels →
  "Purchase_Amount" ∉ columns data →
  add_reason user_id data det = Err (KeyError ["Purchase_Amount"]).
Proof.
  intros Hall Hmiss. unfold lookup_labels in Hall.
  repeat (apply Forall_cons in Hall as [? Hall]).
  unfold add_reason.
  repeat (rewrite select_present by done; simpl).
  by rewrite getitem_missing.
Qed.

(** X6. The amount column is read only while a reason is written.  On a
    frame that has the four other columns and lacks [Purchase_Amount], a
    call that has nothing to recommend (no candidate, or a count of zero)
    returns the empty list, and a call with a candidate and a positive
    count raises [KeyError] for [Purchase_Amount]. *)
Theorem amount_column_needed_only_for_reasons user_id n data model items :
  Forall (λ l, l ∈ columns data) lookup_labels →
  "Purchase_Amount" ∉ columns data →
  items_to_predict user_id data = Ok items →
  (items = [] ∨ n = 0 →
   get_recommendations_for_user user_id n data model = Ok []) ∧
  (items ≠ [] → 0 < n →
   get_recommendations_for_user user_id n data model
   = Err (KeyError ["Purchase_Amount"])).
Proof.
  intros Hall Hmiss Hitems.
  assert (∃ d, product_details_dict data = Ok d) as [d Hd].
  { unfold lookup_labels in Hall.
    repeat (apply Forall_cons in Hall as [? Hall]).
    unfold product_details_dict.
    rewrite getitems_present by (repeat constructor; done). by eexists. }
  unfold get_recommendations_for_user. rewrite Hitems, Hd; simpl. split.
  - intros Hnone.
    replace (top_predictions user_id n model items) with (@nil (Z * Q));
      [done|].
    unfold top_predictions, slice_to. destruct Hnone as [->| ->]; [|done].
    simpl. destruct (0 <=? n); by rewrite take_nil.
  - intros Hsome Hn.
    destruct (mapR_total (detail_of d) (top_predictions user_id n model items))
      as [dets Hdets].
    { apply Forall_forall. intros p [Hp _]%top_predictions_elem_of.
      apply (items_elem_of _ _ _ p.1 Hitems) in Hp as [Hp _].
      destruct (product_details_dict_lookup _ _ _ Hd Hp) as [[c s] Hcs].
      unfold detail_of. rewrite Hcs. by eexists. }
    rewrite Hdets; simpl.
    destruct dets as [|det dets].
    + exfalso. apply mapR_Ok, Forall2_length in Hdets.
      unfold top_predictions in Hdets.
      pose proof (slice_to_length n (sorted_desc (score user_id model items))
                    ltac:(lia)) as Hlen.
      rewrite (Permutation_length (sorted_desc_perm _)) in Hlen.
      unfold score in Hlen. rewrite length_fmap in Hlen.
      unfold score in Hdets. rewrite Hdets in Hlen.
      destruct items; [done|]. simpl in Hlen. lia.
    + simpl. by rewrite add_reason_without_amount.
Qed.

(** ** Frames that look the same to the recommender *)

Lemma bind_related {A B} (R : A → A → Prop) (r1 r2 : Result A)
    (k1 k2 : A → Result B) :
  related R r1 r2 → (∀ a1 a2, R a1 a2 → k1 a1 = k2 a2) →
  (r1 ≫= k1) = (r2 ≫= k2).
Proof.
  destruct r1 as [a1|e1], r2 as [a2|e2]; simpl; try done.
  - intros HR Hk. by apply Hk.
  - by intros -> _.
Qed.

Lemma same_row_filter (P : Purchase → Prop) `{∀ r, Decision (P r)} l1 l2 :
  (∀ r1 r2, same_row r1 r2 → P r1 ↔ P r2) →
  Forall2 same_row l1 l2 → Forall2 same_row (filter P l1) (filter P l2).
Proof.
  intros HP. induction 1 as [|r1 r2 l1 l2 Hr _ IH]; [constructor|].
  rewrite !filter_cons. pose proof (HP _ _ Hr).
  destruct (decide (P r1)), (decide (P r2)); try tauto. by constructor.
Qed.

Lemma same_row_fmap {A} (field : Purchase → A) l1 l2 :
  (∀ r1 r2, same_row r1 r2 → field r1 = field r2) →
  Forall2 same_row l1 l2 → field <$> l1 = field <$> l2.
Proof.
  intros Hf. induction 1 as [|r1 r2 l1 l2 Hr _ IH]; [done|].
  rewrite !fmap_cons. f_equal; [by apply Hf | done].
Qed.

Lemma getitem_same_view {A} d1 d2 label (field : Purchase → A) :
  same_view d1 d2 → label ∈ recommender_labels →
  (∀ r1 r2, same_row r1 r2 → field r1 = field r2) →
  getitem d1 label field = getitem d2 label field.
Proof.
  intros [Hcols Hrows] Hl Hf. unfold getitem.
  pose proof (Hcols label Hl).
  destruct (decide (label ∈ columns d1)), (decide (label ∈ columns d2));
    try tauto.
  f_equal. by apply same_row_fmap.
Qed.

Lemma select_same_view {A} `{EqDecision A} d1 d2 label
    (field : Purchase → A) v :
  same_view d1 d2 → label ∈ recommender_labels →
  (∀ r1 r2, same_row r1 r2 → field r1 = field r2) →
  related same_view (select d1 label field v) (select d2 label field v).
Proof.
  intros [Hcols Hrows] Hl Hf. unfold select.
  pose proof (Hcols label Hl).
  destruct (decide (label ∈ columns d1)), (decide (label ∈ columns d2));
    try tauto; simpl; [|done].
  split; [done|]. simpl. apply same_row_filter; [|done].
  intros r1 r2 Hr. by rewrite (Hf _ _ Hr).
Qed.

Lemma bind_ext {A B} (r : Result A) (k1 k2 : A → Result B) :
  (∀ a, k1 a = k2 a) → (r ≫= k1) = (r ≫= k2).
Proof. intros Hk. destruct r; simpl; [apply Hk | done]. Qed.

Lemma mapR_ext {A B} (f g : A → Result B) l :
  (∀ x, f x = g x) → mapR f l = mapR g l.
Proof.
  intros Hfg. induction l as [|x l IH]; [done|].
  simpl. by rewrite Hfg, IH.
Qed.

Lemma filter_ext_in {A} (P R : A → Prop)
    `{∀ x, Decision (P x)} `{∀ x, Decision (R x)} (l : list A) :
  (∀ x, x ∈ l → P x ↔ R x) → filter P l = filter R l.
Proof.
  induction l as [|x l IH]; intros HPR; [done|].
  rewrite !filter_cons.
  rewrite IH by (intros y Hy; apply HPR; by right).
  pose proof (HPR x ltac:(left)).
  destruct (decide (P x)), (decide (R x)); tauto.
Qed.

Lemma getitems_same_view {A} d1 d2 labels (fields : Purchase → A) :
  same_view d1 d2 →
  (∀ l, l ∈ labels → l ∈ recommender_labels) →
  (∀ r1 r2, same_row r1 r2 → fields r1 = fields r2) →
  getitems d1 labels fields = getitems d2 labels fields.
Proof.
  intros [Hcols Hrows] Hlabels Hf. unfold getitems.
  rewrite (filter_ext_in (λ l, l ∉ columns d1) (λ l, l ∉ columns d2)).
  - destruct (filter _ labels); [|done]. f_equal. by apply same_row_fmap.
  - intros l Hl. by rewrite (Hcols l (Hlabels l Hl)).
Qed.

Ltac label_in :=
  unfold recommender_labels; rewrite !elem_of_cons; auto 10.

Ltac same_field :=
  let H := fresh in intros ? ? H; unfold same_row in H; simpl; intuition congruence.

Lemma items_to_predict_same_view user_id d1 d2 :
  same_view d1 d2 → items_to_predict user_id d1 = items_to_predict user_id d2.
Proof.
  intros Hv. unfold items_to_predict.
  rewrite (getitem_same_view d1 d2 "Product_ID" Product_ID Hv)
    by (label_in || same_field).
  apply bind_ext. intros ids.
  apply (bind_related same_view).
  - apply select_same_view; [done | label_in | same_field].
  - intros u1 u2 Hu.
    by rewrite (getitem_same_view u1 u2 "Product_ID" Product_ID Hu)
      by (label_in || same_field).
Qed.

Lemma product_details_dict_same_view d1 d2 :
  same_view d1 d2 → product_details_dict d1 = product_details_dict d2.
Proof.
  intros Hv. unfold product_details_dict.
  rewrite (getitems_same_view d1 d2 _ _ Hv); [done| |same_field].
  intros l. rewrite !elem_of_cons, elem_of_nil.
  intros [->|[->|[->|[]]]]; label_in.
Qed.

Lemma add_reason_same_view user_id d1 d2 det :
  same_view d1 d2 → add_reason user_id d1 det = add_reason user_id d2 det.
Proof.
  intros Hv. unfold add_reason.
  apply (bind_related same_view);
    [apply select_same_view; [done | label_in | same_field]|].
  intros c1 c2 Hc.
  apply (bind_related same_view);
    [apply select_same_view; [done | label_in | same_field]|].
  intros s1 s2 Hs.
  apply (bind_related same_view);
    [apply select_same_view; [done | label_in | same_field]|].
  intros u1 u2 Hu.
  apply (bind_related same_view);
    [apply select_same_view; [done | label_in | same_field]|].
  intros uc1 uc2 Huc.
  apply (bind_related same_view);
    [apply select_same_view; [done | label_in | same_field]|].
  intros us1 us2 Hus.
  rewrite (getitem_same_view s1 s2 "Purchase_Amount" Purchase_Amount Hs)
    by (label_in || same_field).
  assert (∀ a b : DataFrame, same_view a b → rows a = [] ↔ rows b = [])
    as Hempty.
  { intros a b [_ Hab].
    split; intros E; rewrite E in Hab; by inversion Hab. }
  pose proof (Hempty _ _ Huc). pose proof (Hempty _ _ Hus).
  repeat case_decide; try tauto; done.
Qed.

Lemma same_view_same_outcome user_id n d1 d2 model :
  same_view d1 d2 →
  get_recommendations_for_user user_id n d1 model
  = get_recommendations_for_user user_id n d2 model.
Proof.
  intros Hv. unfold get_recommendations_for_user.
  rewrite (items_to_predict_same_view user_id d1 d2 Hv).
  apply bind_ext. intros items.
  rewrite (product_details_dict_same_view d1 d2 Hv).
  apply bind_ext. intros d. apply bind_ext. intros dets.
  apply mapR_ext. intros det. by apply add_reason_same_view.
Qed.

(** X7. The recommender reads five columns and nothing else: two frames
    on which the same of the five labels are present and whose rows agree
    on the five columns give the same outcome, list or error. *)
Theorem recommendations_depend_on_five_columns user_id n d1 d2 model :
  same_view d1 d2 →
  get_recommendations_for_user user_id n d1 model
  = get_recommendations_for_user user_id n d2 model.
Proof. apply same_view_same_outcome. Qed.

Lemma annotated_same_view {ext : Externals} data :
  same_view (annotated data) data.
Proof.
  split.
  - intros l Hl. unfold annotated, setitem_scaled; simpl.
    case_decide; [done|].
    rewrite elem_of_app, elem_of_cons, elem_of_nil.
    split; [|tauto]. intros [?|[->|[]]]; [done|].
    exfalso. revert Hl. unfold recommender_labels.
    rewrite !elem_of_cons, elem_of_nil. intuition discriminate.
  - rewrite rows_annotated.
    induction (rows data) as [|r l IH]; [constructor|].
    rewrite fmap_cons. constructor; [|done]. by repeat split.
Qed.

(** X8. What the pages do is sound: the recommendations computed on the
    frame that the trainer returns (or has annotated in place) are those
    computed on the frame it was given. *)
Theorem recommendations_unchanged_by_training {ext : Externals}
    data w m d w' user_id n model :
  train_and_save_model data w = (Ok (m, d), w') →
  get_recommendations_for_user user_id n d model
  = get_recommendations_for_user user_id n data model.
Proof.
  intros [-> _]%train_and_save_model_Ok.
  apply same_view_same_outcome, annotated_same_view.
Qed.

End recommender_more.

(** ** The trainer and the disk *)

Section trainer_more.
Context {ext : Externals}.

(** A training run makes its calls in one order and stops at the first
    that fails; it writes the two files only after the fit, the model
    first; it succeeds when the last call, the dump of the parameters, has
    been made and did not raise. *)
Lemma train_cases ds w r w' :
  train ds w = (r, w') →
  ∃ evs, trace w' = trace w ++ evs ∧
    evs `prefix_of` training_events ∧ evs ≠ [] ∧
    ((∀ path, EvDump path ∉ evs) → disk w' = disk w) ∧
    (EvDump "best_params.pkl" ∈ evs →
     ∃ params tr s2 s3 m,
       SVDpp_fit params tr s2 = (Ok m, s3) ∧ model_pkl (disk w') = Some m) ∧
    ((∃ m, r = Ok m) ↔
     evs = training_events ∧ write_outcome "best_params.pkl" = Written) ∧
    (∀ m, r = Ok m →
       model_pkl (disk w') = Some m ∧ is_Some (best_params_pkl (disk w'))).
Proof.
  unfold training_events. walk;
    intros [= <- <-]; cbn; rewrite <- ?app_assoc; cbn;
    eexists; (split; [reflexivity|]); (split; [by eexists|]);
    (split; [done|]);
    (split;
       [first [done
              | intros Hno; exfalso; apply (Hno "model.pkl");
                rewrite !elem_of_cons; auto 10]|]);
    (split;
       [first [intros _; eexists _, _, _, _, _; split; [exact Hfit | done]
              | intros Hin; exfalso; revert Hin;
                rewrite !elem_of_cons, elem_of_nil; intuition discriminate]|]);
    (split;
       [split;
          [first [intros _; by split | by intros [? [=]]]
          | first [intros _; by eexists | by intros [[=] ?] | by intros [_ [=]]]]
       |]);
    first [by intros ? [=]
          | intros ? [= <-]; split; [done | by eexists]].
Qed.

Lemma missing_column_run data w :
  (∃ l, l ∈ trainer_labels ∧ l ∉ columns data) →
  ∃ labels, train_and_save_model data w = (Err (KeyError labels), w).
Proof.
  intros (labels & Hprep & _)%prepare_missing.
  exists labels. unfold train_and_save_model. run. by rewrite Hprep.
Qed.

(** With both paths on disk the trainer only loads: the files stay as they
    are, and it returns the model that [model.pkl] holds when both files
    hold pickles. *)
Lemma cached_run data w r w' :
  Forall (λ l, l ∈ columns data) trainer_labels →
  cached w →
  train_and_save_model data w = (r, w') →
  disk w' = disk w ∧
  ∃ evs, trace w' = trace w ++ evs ∧ evs `prefix_of` loading_events ∧
    ∀ m d, r = Ok (m, d) →
      model_pkl (disk w) = Some m ∧ is_Some (best_params_pkl (disk w)).
Proof.
  intros Hcols [[fm Hm] [fp Hp]]. unfold train_and_save_model. run.
  rewrite (prepare_present data Hcols); simpl.
  unfold model_pkl, best_params_pkl, loading_events.
  rewrite Hm; simpl. rewrite Hp; simpl. rewrite Hm.
  destruct fm as [m0|]; simpl.
  - rewrite Hp. destruct fp as [p0|]; simpl.
    + intros [= <- <-]. simpl. split; [done|]. rewrite <- app_assoc.
      eexists. split; [reflexivity|]. split; [done|].
      intros m d [= <- _]. split; [done | by eexists].
    + intros [= <- <-]. simpl. split; [done|]. rewrite <- app_assoc.
      eexists. split; [reflexivity|]. split; [done|]. by intros m d [=].
  - intros [= <- <-]. simpl. split; [done|].
    eexists. split; [reflexivity|]. split; [by eexists|]. by intros m d [=].
Qed.
End trainer_more.





Section trainer_extras.
Context {ext : Externals}.

(** X9. The trainer and the disk.  After a call that succeeds both files
    hold pickles and [model.pkl] holds the model that was returned.  The
    files change through the dumps only: a call that made no dump, because
    it found both files, raised [KeyError] or failed in the grid search,
    the split or the fit, leaves the two files as they were.  And the
    model is written before the parameters: a call that got as far as the
    dump of the parameters has put a model it fitted into [model.pkl],
    also when that last dump raises and the call fails. *)
Theorem outcome_and_disk data w r w' :
  train_and_save_model data w = (r, w') →
  ∃ evs, trace w' = trace w ++ evs ∧
    (∀ m d, r = Ok (m, d) →
       model_pkl (disk w') = Some m ∧ is_Some (best_params_pkl (disk w'))) ∧
    ((∀ path, EvDump path ∉ evs) → disk w' = disk w) ∧
    (EvDump "best_params.pkl" ∈ evs →
     ∃ params tr s2 s3 m,
       SVDpp_fit params tr s2 = (Ok m, s3) ∧ model_pkl (disk w') = Some m).
Proof.
  intros Hrun.
  destruct (decide (Forall (λ l, l ∈ columns data) trainer_labels))
    as [Hcols|Hmiss].
  - destruct (decide (cached w)) as [Hc|Hc].
    + destruct (cached_run data w r w' Hcols Hc Hrun)
        as (Hdisk & evs & Htrace & Hpre & Hok).
      exists evs. split; [done|]. split; [|split; [done|]].
      * intros m d Hr. rewrite Hdisk. by eapply Hok.
      * intros Hin. eapply prefix_elem_of in Hin; [|exact Hpre].
        unfold loading_events in Hin.
        rewrite !elem_of_cons, elem_of_nil in Hin.
        by destruct Hin as [|[|]].
    + rewrite (cache_miss data w Hcols Hc) in Hrun.
      destruct (train (dataset_of data) w) as [r0 w0] eqn:Htrain.
      injection Hrun as <- <-.
      apply train_cases in Htrain
        as (evs & Htrace & _ & _ & Hsame & Hhalf & _ & Hok).
      exists evs. split; [done|]. split; [|done].
      intros m d Hr. destruct r0 as [m0|e]; [|done].
      injection Hr as <- _. by apply Hok.
  - apply not_Forall_Exists in Hmiss; [|apply _].
    apply Exists_exists in Hmiss as (l & Hl & Hnot).
    destruct (missing_column_run data w) as (labels & Herr); [by exists l|].
    rewrite Herr in Hrun. injection Hrun as <- <-.
    exists []. rewrite app_nil_r. split; [done|]. split; [done|].
    split; [done|]. by intros ?%elem_of_nil.
Qed.

(** X10. When an artifact is missing and the frame has its three columns,
    the calls that leave the process are a beginning of: grid search,
    split, fit, dump of the model, dump of the parameters.  Nothing is
    loaded, at least the grid search is made, and the run succeeds exactly
    when all five were made and the last of them, the dump of the
    parameters, did not raise. *)
Theorem calls_of_a_training_run data w r w' :
  Forall (λ l, l ∈ columns data) trainer_labels →
  ¬ cached w →
  train_and_save_model data w = (r, w') →
  ∃ evs, trace w' = trace w ++ evs ∧
    evs `prefix_of` training_events ∧ evs ≠ [] ∧
    (∀ path, EvLoad path ∉ evs) ∧
    ((∃ m d, r = Ok (m, d)) ↔
     evs = training_events ∧ write_outcome "best_params.pkl" = Written).
Proof.
  intros Hcols Hmiss Hrun. rewrite (cache_miss data w Hcols Hmiss) in Hrun.
  destruct (train (dataset_of data) w) as [r0 w0] eqn:Htrain.
  injection Hrun as <- <-.
  apply train_cases in Htrain as (evs & Htrace & Hpre & Hne & _ & _ & Hiff & _).
  exists evs. split; [done|]. split; [done|]. split; [done|]. split.
  - intros path Hin. eapply prefix_elem_of in Hin; [|exact Hpre].
    unfold training_events in Hin.
    rewrite !elem_of_cons, elem_of_nil in Hin.
    by destruct Hin as [|[|[|[|[|]]]]].
  - rewrite <- Hiff. destruct r0 as [m|e].
    + split; intros _; [by eexists | by eexists _, _].
    + split; [by intros (? & ? & ?) | by intros [? ?]].
Qed.

(** X11. What is dumped is what is loaded: after a run that fitted a
    model, a call on any frame with the three columns returns that model,
    makes the two loads and no other call, and leaves disk and generator
    as they are. *)
Theorem fitted_model_round_trip data w m d w1 data2 :
  ¬ cached w →
  train_and_save_model data w = (Ok (m, d), w1) →
  Forall (λ l, l ∈ columns data2) trainer_labels →
  train_and_save_model data2 w1
  = (Ok (m, annotated data2),
     mkWorld (disk w1) (rng w1) (trace w1 ++ loading_events)).
Proof.
  intros Hmiss Hrun Hcols.
  apply train_and_save_model_Ok in Hrun as [_ [[Hc _]|[_ Htrain]]]; [done|].
  apply train_persists in Htrain as [Hm [p Hp]].
  by apply (cache_hit data2 w1 m p).
Qed.

Lemma annotated_idempotent data : annotated (annotated data) = annotated data.
Proof.
  assert (rows (annotated (annotated data)) = rows (annotated data)) as Hrows.
  { rewrite (rows_annotated (annotated data)), rows_annotated.
    rewrite <- list_fmap_compose. by apply list_fmap_ext. }
  assert (columns (annotated (annotated data)) = columns (annotated data))
    as Hcols.
  { unfold annotated at 1. unfold setitem_scaled; simpl.
    by rewrite decide_True by apply scaled_in_annotated. }
  destruct (annotated (annotated data)), (annotated data); simpl in *.
  congruence.
Qed.

(** X12. The frame that comes back differs from the one given only in the
    scaled column: the labels are those of the input and
    [Purchase_Amount_Scaled], the rows agree on every other column and
    carry [log1p] of their amount; and handing the returned frame to the
    trainer again returns it unchanged. *)
Theorem returned_frame data w m d w' :
  train_and_save_model data w = (Ok (m, d), w') →
  (∀ l, l ∈ columns d ↔ l ∈ columns data ∨ l = "Purchase_Amount_Scaled") ∧
  Forall2
    (λ r r', same_row r r' ∧
             Purchase_Amount_Scaled r' = log1p (Purchase_Amount r))
    (rows data) (rows d) ∧
  ∀ w2 m2 d2 w2', train_and_save_model d w2 = (Ok (m2, d2), w2') → d2 = d.
Proof.
  intros [-> _]%train_and_save_model_Ok. split; [|split].
  - intros l. unfold annotated, setitem_scaled; simpl.
    case_decide as Hin.
    + split; [by left | by intros [?| ->]].
    + rewrite elem_of_app, elem_of_cons, elem_of_nil. tauto.
  - rewrite rows_annotated.
    induction (rows data) as [|r l IH]; [constructor|].
    rewrite fmap_cons. constructor; [|done]. by repeat split.
  - intros w2 m2 d2 w2' [-> _]%train_and_save_model_Ok.
    apply annotated_idempotent.
Qed.

End trainer_extras.

(** ** The popularity table *)

Lemma sum_Z_cons x l : sum_Z (x :: l) = x + sum_Z l.
Proof. reflexivity. Qed.

Lemma sum_Z_perm l l' : l ≡ₚ l' → sum_Z l = sum_Z l'.
Proof.
  unfold sum_Z.
  induction 1 as [|x l l' _ IH|x y l|l l' l'' _ IH1 _ IH2]; simpl; lia.
Qed.

Lemma sum_Z_split {A} (val : A → Z) (P : A → Prop)
    `{∀ x, Decision (P x)} (l : list A) :
  sum_Z (val <$> l)
  = sum_Z (val <$> filter P l) + sum_Z (val <$> filter (λ x, ¬ P x) l).
Proof.
  induction l as [|x l IH]; [done|].
  rewrite fmap_cons, !filter_cons.
  destruct (decide (P x)), (decide (¬ P x)); try tauto;
    rewrite ?fmap_cons, !sum_Z_cons; lia.
Qed.

Lemma sum_Z_nonneg {A} (val : A → Z) (l : list A) :
  (∀ x, x ∈ l → 0 ≤ val x) → 0 ≤ sum_Z (val <$> l).
Proof.
  induction l as [|x l IH]; intros Hl; [done|].
  rewrite fmap_cons, sum_Z_cons.
  pose proof (Hl x ltac:(left)).
  assert (0 ≤ sum_Z (val <$> l)) by (apply IH; intros y Hy; apply Hl; by right).
  lia.
Qed.

(** The rows with another key than [k], seen from a key that is not [k]. *)
Lemma filter_other_key (k k' : Z) (rows : list Sale) :
  k' ≠ k →
  filter (λ s, sale_Product_ID s = k')
    (filter (λ s, ¬ sale_Product_ID s = k) rows)
  = filter (λ s, sale_Product_ID s = k') rows.
Proof.
  intros Hne. rewrite list_filter_filter. apply list_filter_iff.
  intros s. split; [tauto|]. intros Hs. split; [done|]. congruence.
Qed.

(** Summing group by group is summing the frame, when every row has its
    key among the distinct keys. *)
Lemma grouped_sum_Z (val : Sale → Z) keys rows :
  NoDup keys →
  (∀ s, s ∈ rows → sale_Product_ID s ∈ keys) →
  sum_Z ((λ k, sum_Z (val <$> filter (λ s, sale_Product_ID s = k) rows))
           <$> keys)
  = sum_Z (val <$> rows).
Proof.
  intros Hnd. revert rows.
  induction Hnd as [|k keys Hk Hnd IH]; intros rows Hrows.
  - destruct rows as [|s rows]; [done|].
    exfalso. eapply elem_of_nil, (Hrows s). left.
  - rewrite fmap_cons, sum_Z_cons.
    rewrite (sum_Z_split val (λ s, sale_Product_ID s = k) rows).
    f_equal.
    rewrite <- (IH (filter (λ s, ¬ sale_Product_ID s = k) rows)).
    + f_equal. apply Forall_fmap_ext_1, Forall_forall.
      intros k' Hk'. rewrite filter_other_key; [done|]. by intros ->.
    + intros s [Hs Hin]%list_elem_of_filter.
      pose proof (Hrows s Hin) as Hkey.
      by apply elem_of_cons in Hkey as [?|?].
Qed.

(** [int64] arithmetic is arithmetic modulo [2^64]. *)
Lemma int64_mod z : int64 z mod 2 ^ 64 = z mod 2 ^ 64.
Proof.
  unfold int64.
  rewrite <- Zminus_mod_idemp_l, Z.mod_mod by lia.
  rewrite Zminus_mod_idemp_l. f_equal. lia.
Qed.

Lemma int64_eq a b : a mod 2 ^ 64 = b mod 2 ^ 64 → int64 a = int64 b.
Proof.
  intros Hab. unfold int64.
  by rewrite <- (Zplus_mod_idemp_l a), Hab, Zplus_mod_idemp_l.
Qed.

Lemma int64_small z : - 2 ^ 63 ≤ z < 2 ^ 63 → int64 z = z.
Proof. intros Hz. unfold int64. rewrite Z.mod_small; lia. Qed.

Lemma int64_add a b : int64 (int64 a + b) = int64 (a + b).
Proof.
  apply int64_eq. by rewrite <- Zplus_mod_idemp_l, int64_mod, Zplus_mod_idemp_l.
Qed.

(** Adding one value after the other into an [int64] gives the sum modulo
    [2^64]. *)
Lemma groupby_sum_int_spec l : groupby_sum_int l = int64 (sum_Z l).
Proof.
  unfold groupby_sum_int.
  assert (∀ acc, foldl (λ acc x, int64 (acc + x)) (int64 acc) l
                 = int64 (acc + sum_Z l)) as Hgen.
  { induction l as [|x l IH]; intros acc; cbn [foldl].
    - f_equal. unfold sum_Z; simpl. lia.
    - rewrite int64_add, IH, sum_Z_cons. f_equal. lia. }
  exact (Hgen 0).
Qed.

Lemma sum_Z_int64 {A} (f : A → Z) (keys : list A) :
  int64 (sum_Z ((λ k, int64 (f k)) <$> keys)) = int64 (sum_Z (f <$> keys)).
Proof.
  apply int64_eq. induction keys as [|k keys IH]; [done|].
  rewrite !fmap_cons, !sum_Z_cons.
  rewrite Zplus_mod, IH, int64_mod, <- Zplus_mod. done.
Qed.

Lemma analyze_popularity_Ok {num : Numerics} {srt : Sorting} data table :
  analyze_popularity data = Ok table →
  table = sort_values_desc Popularity total_revenue
            (aggregate <$> groupby_Product_ID (sales data)).
Proof.
  unfold analyze_popularity. case_decide; [|done].
  destruct (filter _ _); [|done]. by intros [= <-].
Qed.

Lemma groupby_keys rows :
  fst <$> groupby_Product_ID rows
  = merge_sort Z.le (unique (sale_Product_ID <$> rows)).
Proof.
  unfold groupby_Product_ID. rewrite <- list_fmap_compose.
  rewrite <- (list_fmap_id (merge_sort _ _)) at 2. by apply list_fmap_ext.
Qed.

Lemma groupby_keys_NoDup rows : NoDup (fst <$> groupby_Product_ID rows).
Proof.
  rewrite groupby_keys, merge_sort_Permutation. apply NoDup_unique.
Qed.

Lemma groupby_keys_elem_of rows k :
  k ∈ fst <$> groupby_Product_ID rows ↔ k ∈ sale_Product_ID <$> rows.
Proof. by rewrite groupby_keys, merge_sort_Permutation, elem_of_unique. Qed.

Lemma aggregate_keys {num : Numerics} rows :
  pop_Product_ID <$> (aggregate <$> groupby_Product_ID rows)
  = fst <$> groupby_Product_ID rows.
Proof. rewrite <- list_fmap_compose. by apply list_fmap_ext. Qed.

(** An entry of the aggregated table is the aggregate of the rows of its
    product, and the product has rows. *)
Lemma aggregate_elem_of {num : Numerics} rows e :
  e ∈ aggregate <$> groupby_Product_ID rows →
  e = aggregate (pop_Product_ID e,
                 filter (λ s, sale_Product_ID s = pop_Product_ID e) rows) ∧
  pop_Product_ID e ∈ sale_Product_ID <$> rows.
Proof.
  intros (g & -> & Hg)%list_elem_of_fmap.
  assert (g.1 ∈ fst <$> groupby_Product_ID rows) as Hk
    by by apply list_elem_of_fmap_2.
  apply groupby_keys_elem_of in Hk.
  unfold groupby_Product_ID in Hg.
  apply list_elem_of_fmap in Hg as (k & -> & _). simpl in *. by split.
Qed.

(** X14. The popularity table has exactly one row for every product that
    occurs in the frame, and no row has a smaller revenue than a later
    one. *)
Theorem popularity_one_row_per_product {num : Numerics} {srt : Sorting}
    data table :
  sorts_descending srt →
  analyze_popularity data = Ok table →
  NoDup (pop_Product_ID <$> table) ∧
  (∀ p, p ∈ pop_Product_ID <$> table ↔
        ∃ s, s ∈ sales data ∧ sale_Product_ID s = p) ∧
  StronglySorted (λ a b, (total_revenue b <= total_revenue a)%Q) table.
Proof.
  intros Hsort ->%analyze_popularity_Ok.
  destruct (Hsort Popularity total_revenue
              (aggregate <$> groupby_Product_ID (sales data)))
    as [Hperm Hsorted].
  split; [|split; [|done]].
  - rewrite Hperm, aggregate_keys. apply groupby_keys_NoDup.
  - intros p.
    rewrite Hperm, aggregate_keys, groupby_keys_elem_of, list_elem_of_fmap.
    split; intros (s & ? & ?); by exists s.
Qed.

(** The table before it is sorted, column by column. *)
Lemma aggregate_units {num : Numerics} rows :
  total_purchases <$> (aggregate <$> groupby_Product_ID rows)
  = (λ k, int64 (sum_Z (Purchase_Quantity
                          <$> filter (λ s, sale_Product_ID s = k) rows)))
      <$> (fst <$> groupby_Product_ID rows).
Proof.
  unfold groupby_Product_ID. rewrite <- !list_fmap_compose.
  apply list_fmap_ext. intros ? k _. simpl. apply groupby_sum_int_spec.
Qed.

(** X15. The figures of a row of the table are those of the rows of its
    product, and of no other row.  The product has rows; the units are the
    sum of their quantities in [int64] arithmetic, which is the sum itself
    when it fits; the revenue and the average price are what the grouped
    sum and mean of pandas answer on their amounts and on their unit
    prices, taken in frame order. *)
Theorem popularity_figures {num : Numerics} {srt : Sorting} data table :
  sorts_descending srt →
  analyze_popularity data = Ok table →
  ∀ e, e ∈ table →
    let g := filter (λ s, sale_Product_ID s = pop_Product_ID e) (sales data) in
    g ≠ [] ∧
    total_purchases e = int64 (sum_Z (Purchase_Quantity <$> g)) ∧
    (- 2 ^ 63 ≤ sum_Z (Purchase_Quantity <$> g) < 2 ^ 63 →
     total_purchases e = sum_Z (Purchase_Quantity <$> g)) ∧
    total_revenue e = groupby_sum (sale_Amount <$> g) ∧
    average_price e = groupby_mean (Unit_Price <$> g).
Proof.
  intros Hsort ->%analyze_popularity_Ok e He g.
  destruct (Hsort Popularity total_revenue
              (aggregate <$> groupby_Product_ID (sales data)))
    as [Hperm _].
  rewrite Hperm in He. apply aggregate_elem_of in He as [He Hp].
  fold g in He.
  assert (g ≠ []) as Hg.
  { apply filter_nonempty.
    apply list_elem_of_fmap in Hp as (s & Hs & Hin). by exists s. }
  pose proof (f_equal total_purchases He) as Hunits.
  pose proof (f_equal total_revenue He) as Hrevenue.
  pose proof (f_equal average_price He) as Hprice.
  simpl in Hunits, Hrevenue, Hprice.
  rewrite groupby_sum_int_spec in Hunits.
  split; [done|]. split; [done|]. split; [|done].
  intros Hfits. by rewrite Hunits, int64_small.
Qed.

(** X16. No unit is lost or counted twice: in [int64] arithmetic the units
    of the table add up to the quantities of the frame, and they add up to
    them exactly when no quantity is negative and their sum fits. *)
Theorem popularity_conserves_units {num : Numerics} {srt : Sorting}
    data table :
  sorts_descending srt →
  analyze_popularity data = Ok table →
  int64 (sum_Z (total_purchases <$> table))
  = int64 (sum_Z (Purchase_Quantity <$> sales data)) ∧
  ((∀ s, s ∈ sales data → 0 ≤ Purchase_Quantity s) →
   sum_Z (Purchase_Quantity <$> sales data) < 2 ^ 63 →
   sum_Z (total_purchases <$> table)
   = sum_Z (Purchase_Quantity <$> sales data)).
Proof.
  intros Hsort ->%analyze_popularity_Ok.
  destruct (Hsort Popularity total_revenue
              (aggregate <$> groupby_Product_ID (sales data)))
    as [Hperm _].
  assert (∀ s, s ∈ sales data →
            sale_Product_ID s ∈ fst <$> groupby_Product_ID (sales data))
    as Hcover.
  { intros s Hs. apply groupby_keys_elem_of. by apply list_elem_of_fmap_2. }
  pose proof (groupby_keys_NoDup (sales data)) as Hnd.
  rewrite (sum_Z_perm _ _ (fmap_Permutation total_purchases _ _ Hperm)).
  rewrite aggregate_units.
  split.
  - rewrite sum_Z_int64. f_equal.
    apply (grouped_sum_Z Purchase_Quantity _ _ Hnd Hcover).
  - intros Hpos Hfits.
    rewrite <- (grouped_sum_Z Purchase_Quantity _ _ Hnd Hcover).
    f_equal. apply list_fmap_ext. intros ? k _. apply int64_small.
    pose proof (sum_Z_split Purchase_Quantity (λ s, sale_Product_ID s = k)
                  (sales data)) as Hsplit.
    assert (0 ≤ sum_Z (Purchase_Quantity
                         <$> filter (λ s, sale_Product_ID s = k) (sales data)))
      by (apply sum_Z_nonneg; intros s [_ Hs]%list_elem_of_filter; auto).
    assert (0 ≤ sum_Z (Purchase_Quantity
                         <$> filter (λ s, ¬ sale_Product_ID s = k)
                               (sales data)))
      by (apply sum_Z_nonneg; intros s [_ Hs]%list_elem_of_filter; auto).
    cbn beta in Hsplit. lia.
Qed.

(** ** The further properties at sample inputs *)

Lemma StronglySorted_fmap_Forall {A B} (R : relation A) (R2 : relation B)
    (P : A → Prop) (f : A → B) (l : list A) :
  (∀ x y, P x → P y → R x y → R2 (f x) (f y)) →
  Forall P l → StronglySorted R l → StronglySorted R2 (f <$> l).
Proof.
  intros HR HP. induction 1 as [|x l Hl IH Hx]; [constructor|].
  apply Forall_cons in HP as [Px HP].
  rewrite fmap_cons. constructor; [by apply IH|].
  apply Forall_fmap, Forall_forall. intros y Hy.
  rewrite Forall_forall in Hx, HP. apply HR; auto.
Qed.

Lemma stable_sorting_sorts : sorts_descending stable_sorting.
Proof.
  intros A key l. simpl. split.
  - rewrite sorted_desc_perm, <- list_fmap_compose.
    assert ((fst ∘ (λ a, (a, key a))) <$> l = l) as ->; [|done].
    rewrite <- (list_fmap_id l) at 2. by apply list_fmap_ext.
  - apply (StronglySorted_fmap_Forall by_estimate _ (λ p, p.2 = key p.1)).
    + intros x y Hx Hy Hxy. unfold by_estimate in Hxy. by rewrite <- Hx, <- Hy.
    + apply Forall_forall. intros p Hp.
      rewrite sorted_desc_perm in Hp.
      by apply list_elem_of_fmap in Hp as (a & -> & _).
    + apply sorted_desc_sorted.
Qed.

Lemma recommendation_fields_grounded_witness :
  get_recommendations_for_user (num := exact_sums) 7 5 sample_data
    sample_model = Ok sample_recs ∧
  ∀ r, r ∈ sample_recs →
    rec_Estimated_Rating r = sample_model 7 (rec_Product_ID r) ∧
    ∃ row, row ∈ rows sample_data ∧
      Product_ID row = rec_Product_ID r ∧
      Category row = rec_Category r ∧
      Subcategory row = rec_Subcategory r.
Proof.
  split; [vm_compute; reflexivity|].
  apply (recommendation_fields_grounded (num := exact_sums)
      7 5 sample_data sample_model).
  vm_compute; reflexivity.
Defined.

Lemma recommended_dominate_the_rest_witness :
  get_recommendations_for_user (num := exact_sums)
      7 1 sample_data sample_model = Ok sample_top ∧
  items_to_predict 7 sample_data = Ok [2; 3] ∧
  ∀ r, r ∈ sample_top →
    (sample_model 7%Z 2%Z <= rec_Estimated_Rating r)%Q.
Proof.
  split; [vm_compute; reflexivity|]. split; [vm_compute; reflexivity|].
  intros r Hr.
  apply (recommended_dominate_the_rest (num := exact_sums)
      7 1 sample_data sample_model
           sample_top [2; 3]);
    [vm_compute; reflexivity | vm_compute; reflexivity | exact Hr
    | compute_done | compute_done].
Defined.

Lemma large_count_returns_all_candidates_witness :
  Z.of_nat (length [2; 3]) ≤ 5 ∧
  rec_Product_ID <$> sample_recs ≡ₚ [2; 3].
Proof.
  split; [simpl; lia|].
  apply (large_count_returns_all_candidates (num := exact_sums)
      7 5 sample_data sample_model);
    [simpl; lia | vm_compute; reflexivity | vm_compute; reflexivity].
Defined.

Lemma smaller_count_is_prefix_witness :
  0 ≤ 1 ≤ 5 ∧
  get_recommendations_for_user (num := exact_sums) 7 1 sample_data sample_model
  = Ok (take (Z.to_nat 1) sample_recs).
Proof.
  split; [lia|].
  apply (smaller_count_is_prefix (num := exact_sums)
      7 1 5 sample_data sample_model);
    [lia | vm_compute; reflexivity].
Defined.

Lemma missing_lookup_column_raises_witness :
  (∃ l, l ∈ lookup_labels ∧ l ∉ columns no_category_data) ∧
  ∃ labels,
    get_recommendations_for_user (num := exact_sums)
        7 5 no_category_data sample_model
    = Err (KeyError labels) ∧
    labels ≠ [] ∧
    ∀ l, l ∈ labels → l ∈ lookup_labels ∧ l ∉ columns no_category_data.
Proof.
  assert (∃ l, l ∈ lookup_labels ∧ l ∉ columns no_category_data) as Hmiss.
  { exists "Category". split; compute_done. }
  split; [exact Hmiss|].
  exact (missing_lookup_column_raises (num := exact_sums)
      7 5 no_category_data sample_model Hmiss).
Defined.

Lemma amount_column_needed_only_for_reasons_witness :
  get_recommendations_for_user (num := exact_sums)
      7 0 no_amount_data sample_model = Ok [] ∧
  get_recommendations_for_user (num := exact_sums)
      7 5 no_amount_data sample_model
  = Err (KeyError ["Purchase_Amount"]).
Proof.
  assert (Forall (λ l, l ∈ columns no_amount_data) lookup_labels) as Hall
    by (repeat constructor; compute_done).
  assert ("Purchase_Amount" ∉ columns no_amount_data) as Hmiss
    by compute_done.
  assert (items_to_predict 7 no_amount_data = Ok [2; 3]) as Hitems
    by (vm_compute; reflexivity).
  split.
  - apply (amount_column_needed_only_for_reasons 7 0 no_amount_data
             sample_model [2; 3] Hall Hmiss Hitems). by right.
  - apply (amount_column_needed_only_for_reasons 7 5 no_amount_data
             sample_model [2; 3] Hall Hmiss Hitems); [done | lia].
Defined.

Lemma recommendations_depend_on_five_columns_witness :
  get_recommendations_for_user (num := exact_sums) 7 5
    (annotated (ext := sample_externals) sample_data) sample_model
  = get_recommendations_for_user (num := exact_sums)
      7 5 sample_data sample_model.
Proof.
  apply (recommendations_depend_on_five_columns (num := exact_sums) 7 5
           (annotated (ext := sample_externals) sample_data) sample_data
           sample_model).
  apply annotated_same_view.
Defined.

Lemma recommendations_unchanged_by_training_witness :
  train_and_save_model (ext := sample_externals) sample_data empty_world
  = first_run ∧
  ∀ m d w, first_run = (Ok (m, d), w) →
    get_recommendations_for_user (num := exact_sums) 7 5 d m
    = get_recommendations_for_user (num := exact_sums) 7 5 sample_data m.
Proof.
  split; [vm_compute; reflexivity|].
  intros m d w Hrun.
  apply (recommendations_unchanged_by_training (num := exact_sums)
      (ext := sample_externals)
           sample_data empty_world m d w).
  rewrite <- Hrun. vm_compute; reflexivity.
Defined.

Lemma outcome_and_disk_witness :
  train_and_save_model (ext := full_disk_externals) sample_data empty_world
  = half_written_run ∧
  ∃ evs, trace half_written_run.2 = trace empty_world ++ evs ∧
    (∀ m d, half_written_run.1 = Ok (m, d) →
       model_pkl (disk half_written_run.2) = Some m ∧
       is_Some (best_params_pkl (disk half_written_run.2))) ∧
    ((∀ path, EvDump path ∉ evs) →
     disk half_written_run.2 = disk empty_world) ∧
    (EvDump "best_params.pkl" ∈ evs →
     ∃ params tr s2 s3 m,
       SVDpp_fit (Externals := full_disk_externals) params tr s2 = (Ok m, s3) ∧
       model_pkl (disk half_written_run.2) = Some m).
Proof.
  split; [vm_compute; reflexivity|].
  apply (outcome_and_disk (ext := full_disk_externals) sample_data empty_world
           half_written_run.1 half_written_run.2).
  vm_compute; reflexivity.
Defined.

Lemma calls_of_a_training_run_witness :
  Forall (λ l, l ∈ columns sample_data) trainer_labels ∧
  ¬ cached empty_world ∧
  ∃ evs, trace first_run.2 = trace empty_world ++ evs ∧
    evs `prefix_of` training_events ∧ evs ≠ [] ∧
    (∀ path, EvLoad path ∉ evs) ∧
    ((∃ m d, first_run.1 = Ok (m, d)) ↔
     evs = training_events ∧
     write_outcome (Externals := sample_externals) "best_params.pkl"
     = Written).
Proof.
  assert (¬ cached empty_world) as Hmiss by (by intros [[? [=]] _]).
  split; [exact sample_columns_trainer|]. split; [exact Hmiss|].
  apply (calls_of_a_training_run (ext := sample_externals) sample_data
           empty_world first_run.1 first_run.2 sample_columns_trainer Hmiss).
  vm_compute; reflexivity.
Defined.

Lemma fitted_model_round_trip_witness :
  ∃ m d w1,
    first_run = (Ok (m, d), w1) ∧
    train_and_save_model (ext := sample_externals) sample_data w1
    = (Ok (m, annotated (ext := sample_externals) sample_data),
       mkWorld (disk w1) (rng w1) (trace w1 ++ loading_events)).
Proof.
  eexists _, _, _. split; [reflexivity|].
  eapply (fitted_model_round_trip (ext := sample_externals) sample_data
            empty_world _ _ _ sample_data);
    [by intros [[? [=]] _] | vm_compute; reflexivity
    | exact sample_columns_trainer].
Defined.

Lemma returned_frame_witness :
  ∃ m d w1,
    first_run = (Ok (m, d), w1) ∧
    (∀ l, l ∈ columns d ↔
          l ∈ columns sample_data ∨ l = "Purchase_Amount_Scaled") ∧
    Forall2
      (λ r r', same_row r r' ∧
               Purchase_Amount_Scaled r'
               = log1p (Externals := sample_externals) (Purchase_Amount r))
      (rows sample_data) (rows d).
Proof.
  assert (train_and_save_model (ext := sample_externals) sample_data
            empty_world = first_run) as Hrun by (vm_compute; reflexivity).
  destruct (returned_frame (ext := sample_externals) sample_data empty_world
              _ _ _ Hrun) as (Hcols & Hrows & _).
  eexists _, _, _. split; [reflexivity|]. split; [exact Hcols | exact Hrows].
Defined.


Lemma popularity_one_row_per_product_witness :
  analyze_popularity (num := exact_sums) (srt := stable_sorting) sample_sales
  = Ok sample_table ∧
  NoDup (pop_Product_ID <$> sample_table) ∧
  (∀ p, p ∈ pop_Product_ID <$> sample_table ↔
        ∃ s, s ∈ sales sample_sales ∧ sale_Product_ID s = p) ∧
  StronglySorted (λ a b, (total_revenue b <= total_revenue a)%Q) sample_table.
Proof.
  split; [vm_compute; reflexivity|].
  apply (popularity_one_row_per_product (num := exact_sums)
           (srt := stable_sorting) sample_sales);
    [exact stable_sorting_sorts | vm_compute; reflexivity].
Defined.

Lemma popularity_figures_witness :
  analyze_popularity (num := exact_sums) (srt := stable_sorting) sample_sales
  = Ok sample_table ∧
  ∀ e, e ∈ sample_table →
    let g := filter (λ s, sale_Product_ID s = pop_Product_ID e)
               (sales sample_sales) in
    g ≠ [] ∧
    total_purchases e = int64 (sum_Z (Purchase_Quantity <$> g)) ∧
    (- 2 ^ 63 ≤ sum_Z (Purchase_Quantity <$> g) < 2 ^ 63 →
     total_purchases e = sum_Z (Purchase_Quantity <$> g)) ∧
    total_revenue e = groupby_sum (Numerics := exact_sums) (sale_Amount <$> g) ∧
    average_price e
    = groupby_mean (Numerics := exact_sums) (Unit_Price <$> g).
Proof.
  split; [vm_compute; reflexivity|].
  apply (popularity_figures (num := exact_sums) (srt := stable_sorting)
           sample_sales);
    [exact stable_sorting_sorts | vm_compute; reflexivity].
Defined.

Lemma popularity_conserves_units_witness :
  analyze_popularity (num := exact_sums) (srt := stable_sorting) sample_sales
  = Ok sample_table ∧
  (∀ s, s ∈ sales sample_sales → 0 ≤ Purchase_Quantity s) ∧
  sum_Z (Purchase_Quantity <$> sales sample_sales) < 2 ^ 63 ∧
  sum_Z (total_purchases <$> sample_table)
  = sum_Z (Purchase_Quantity <$> sales sample_sales).
Proof.
  assert (∀ s, s ∈ sales sample_sales → 0 ≤ Purchase_Quantity s) as Hpos.
  { intros s Hs. simpl in Hs. rewrite !elem_of_cons, elem_of_nil in Hs.
    destruct Hs as [->|[->|[->|[]]]]; simpl; lia. }
  assert (sum_Z (Purchase_Quantity <$> sales sample_sales) < 2 ^ 63) as Hfits
    by (vm_compute; reflexivity).
  split; [vm_compute; reflexivity|]. split; [exact Hpos|].
  split; [exact Hfits|].
  apply (popularity_conserves_units (num := exact_sums)
           (srt := stable_sorting) sample_sales);
    [exact stable_sorting_sorts | vm_compute; reflexivity | exact Hpos
    | exact Hfits].
Defined.
